(* ===================================================================== *)
(* WhatsApp phone authentication on Firebase (functions/src/index.ts):   *)
(* a shallow embedding of the three cloud functions and the properties   *)
(* of the verification-code lifecycle.                                   *)
(* ===================================================================== *)

From Stdlib Require Import ZArith QArith Qround Qpower Ascii String Lqa.
From stdpp Require Import base tactics option list strings gmap fin_maps pretty.

Local Open Scope Z_scope.
Local Open Scope string_scope.

(* ===================================================================== *)
(* 1. Phone normalisation: formatPhoneNumber                             *)
(* ===================================================================== *)

(* A JavaScript string is modelled as a [string] of 8-bit characters.
   The function only distinguishes the ten ASCII digits and the character
   '+' from everything else, so the width of a character plays no role. *)
Module Phone.

(* the class \d of the regular expression: '0' .. '9' *)
Definition is_digit (c : ascii) : bool :=
  let n := N_of_ascii c in ((48 <=? n) && (n <=? 57))%N.

(* phoneNumber.replace(/\D/g, "") : every character that is not a digit
   is replaced by the empty string *)
Fixpoint replace_non_digits (s : string) : string :=
  match s with
  | EmptyString => EmptyString
  | String c rest =>
      if is_digit c then String c (replace_non_digits rest)
      else replace_non_digits rest
  end.

(* s.startsWith(p) *)
Definition startsWith (s p : string) : bool := String.prefix p s.

(* s.substring(1) *)
Definition substring1 (s : string) : string :=
  match s with
  | EmptyString => EmptyString
  | String _ rest => rest
  end.

(* function formatPhoneNumber(phoneNumber: string): string *)
Definition formatPhoneNumber (phoneNumber : string) : string :=
  let digits := replace_non_digits phoneNumber in
  if startsWith digits "1" then "+" ++ digits
  else if startsWith digits "0" then "+" ++ substring1 digits
  else if negb (startsWith phoneNumber "+") then "+" ++ digits
  else phoneNumber.

(* every character of the string is a digit *)
Fixpoint all_digits (s : string) : bool :=
  match s with
  | EmptyString => true
  | String c rest => is_digit c && all_digits rest
  end.

(* the canonical international format: a '+' followed by digits only *)
Definition canonical (s : string) : bool :=
  match s with
  | String "+" rest => all_digits rest
  | _ => false
  end.

(* The five rules as the specification words them; rule 2 carries the
   side condition "and the original had no explicit '+'". *)
Definition spec_rules (phoneNumber : string) : string :=
  let digits := replace_non_digits phoneNumber in
  if startsWith digits "1" && negb (startsWith phoneNumber "+")
  then "+" ++ digits
  else if startsWith digits "0" then "+" ++ substring1 digits
  else if negb (startsWith phoneNumber "+") then "+" ++ digits
  else phoneNumber.

End Phone.

Import Phone.

(* ===================================================================== *)
(* 2. Data model                                                         *)
(* ===================================================================== *)

(* interface VerificationData: a child of db.ref("verificationCodes") *)
Record VerificationData := mkVerificationData {
  phoneNumber : string;
  code : string;
  expiresAt : Z;
  createdAt : Z;
}.

(* A JSON leaf of the Realtime Database.  A child of db.ref("users") is an
   object, modelled as a finite map from field names to leaves. *)
Inductive Value :=
| VString (s : string)
| VNumber (n : Z).

(* An account of the Firebase Auth directory, stored under its uid. *)
Record Account := mkAccount {
  acc_phoneNumber : option string;
  acc_displayName : option string;
}.

(* admin.auth.UserRecord: what the Auth calls hand back *)
Record UserRecord := mkUserRecord {
  uid : string;
  account : Account;
}.

(* a rejected promise / thrown exception: the fields the code inspects *)
Record Err := mkErr {
  err_code : string;
  message : string;
}.

(* functions.config().whatsapp *)
Record WhatsAppConfig := mkWhatsAppConfig {
  phone_id : option string;
  token : option string;
  template_name : option string;
  language : option string;
}.

(* Every awaited call to an external service, as it is issued. *)
Inductive Call :=
| CodesSet (codeId : string) (data : VerificationData)
| CodesOnce (codeId : string)
| CodesRemove (codeId : string)
| CodesEndAt (now : Z)
| CodesUpdate (updates : gmap string ())
| UsersUpdate (uid : string) (fields : gmap string Value)
| UsersSet (uid : string) (fields : gmap string Value)
| GetUserByPhoneNumber (phone : string)
| UpdateUser (uid : string) (displayName : string)
| CreateUser (displayName : string) (phone : string)
| CreateCustomToken (uid : string)
| AxiosPost (phoneId accessToken to templateName lang code : string).

(* The state shared by all invocations: the two database paths, the Auth
   directory, and the trace of external calls (oldest first). *)
Record World := mkWorld {
  codesRef : gmap string VerificationData;
  usersRef : gmap string (gmap string Value);
  auth : gmap string Account;
  calls : list Call;
}.

(* What one invocation meets from outside: the successive readings of
   Date.now(), which awaited calls are rejected (numbered in the order
   they are issued), the draw of Math.random(), process.env.NODE_ENV,
   the WhatsApp configuration and the token signer of the Auth service.
   The rejections of [fault] are those the services below do not produce
   themselves: a network failure, a denied permission, a non-2xx answer
   of the gateway, a phone number the Auth service finds malformed. *)
Record Env := mkEnv {
  clock : nat -> Z;
  fault : nat -> option Err;
  random : Q;
  NODE_ENV : option string;
  whatsapp : option WhatsAppConfig;
  sign : string -> string;
}.

(* req.method and the fields read from req.body (absent = undefined) *)
Record Request := mkRequest {
  method : string;
  body_phoneNumber : option string;
  body_codeId : option string;
  body_code : option string;
  body_firstName : option string;
  body_lastName : option string;
}.

(* interface SuccessResponse | ErrorResponse, as sent by res.json, and the
   response that is ended without a body *)
Inductive ResponseBody :=
| SuccessResponse (codeId userId customToken firstName lastName : option string)
| ErrorResponse (error : string) (details : option string)
| EmptyBody.

(* res.status(n).json(b) *)
Record Response := mkResponse {
  status : Z;
  json : ResponseBody;
}.

(* ===================================================================== *)
(* 3. The monad of an invocation: reader of Env, state, exceptions       *)
(* ===================================================================== *)

Inductive Outcome (A : Type) :=
| Resolved (a : A)
| Rejected (e : Err).
Arguments Resolved {A} a.
Arguments Rejected {A} e.

(* the world plus the two cursors into the environment *)
Record St := mkSt {
  world : World;
  reads : nat;
  awaits : nat;
}.

Definition M (A : Type) : Type := Env -> St -> Outcome A * St.

Definition ret {A} (a : A) : M A := fun _ s => (Resolved a, s).

Definition bind {A B} (m : M A) (k : A -> M B) : M B :=
  fun env s =>
    match m env s with
    | (Resolved a, s') => k a env s'
    | (Rejected e, s') => (Rejected e, s')
    end.

Definition throw {A} (e : Err) : M A := fun _ s => (Rejected e, s).

(* try { m } catch (error) { h error } *)
Definition try_catch {A} (m : M A) (h : Err -> M A) : M A :=
  fun env s =>
    match m env s with
    | (Resolved a, s') => (Resolved a, s')
    | (Rejected e, s') => h e env s'
    end.

Declare Scope m_scope.
Delimit Scope m_scope with M.
Notation "x <- m ;; k" := (bind m (fun x => k))
  (at level 100, m at next level, right associativity) : m_scope.
Notation "m ;;; k" := (bind m (fun _ => k))
  (at level 100, right associativity) : m_scope.
Local Open Scope m_scope.

(* Date.now() *)
Definition Date_now : M Z :=
  fun env s =>
    (Resolved (clock env (reads s)),
     mkSt (world s) (S (reads s)) (awaits s)).

Definition log_call (c : Call) (w : World) : World :=
  mkWorld (codesRef w) (usersRef w) (auth w) (calls w ++ [c]).

(* await <external call>: the call is recorded; the environment may reject
   it, in which case the service is left as it was; otherwise the service
   performs it. *)
Definition await {A} (c : Call) (perform : Env -> World -> Outcome A * World)
  : M A :=
  fun env s =>
    let w := log_call c (world s) in
    match fault env (awaits s) with
    | Some e => (Rejected e, mkSt w (reads s) (S (awaits s)))
    | None =>
        let '(o, w') := perform env w in
        (o, mkSt w' (reads s) (S (awaits s)))
    end.

(* ===================================================================== *)
(* 4. The external services                                              *)
(* ===================================================================== *)

(* --- Realtime Database, path verificationCodes ----------------------- *)

(* codesRef.child(codeId).set(data) *)
Definition codes_set (codeId : string) (data : VerificationData) : M unit :=
  await (CodesSet codeId data) (fun _ w =>
    (Resolved tt,
     mkWorld (<[codeId := data]> (codesRef w)) (usersRef w) (auth w) (calls w))).

(* codesRef.child(codeId).once("value"): None when !snap.exists().
   The codeId is taken as the key of a child, one path segment. *)
Definition codes_once (codeId : string) : M (option VerificationData) :=
  await (CodesOnce codeId) (fun _ w => (Resolved (codesRef w !! codeId), w)).

(* codesRef.child(codeId).remove(): no error when the child is absent *)
Definition codes_remove (codeId : string) : M unit :=
  await (CodesRemove codeId) (fun _ w =>
    (Resolved tt,
     mkWorld (delete codeId (codesRef w)) (usersRef w) (auth w) (calls w))).

(* codesRef.orderByChild("expiresAt").endAt(now).once("value"):
   the children whose expiresAt is at most now (endAt is inclusive; every
   child carries a numeric expiresAt) *)
Definition codes_endAt (now : Z) : M (gmap string VerificationData) :=
  await (CodesEndAt now) (fun _ w =>
    (Resolved (filter (fun kv => expiresAt kv.2 <= now) (codesRef w)), w)).

(* codesRef.update(updates) where every value of updates is null:
   each listed child is deleted *)
Definition codes_update (updates : gmap string ()) : M unit :=
  await (CodesUpdate updates) (fun _ w =>
    (Resolved tt,
     mkWorld (filter (fun kv => updates !! kv.1 = None) (codesRef w))
             (usersRef w) (auth w) (calls w))).

(* --- Realtime Database, path users ----------------------------------- *)

(* usersRef.child(uid).update(fields): the listed fields are written, the
   other fields of the child stay *)
Definition users_update (uid : string) (fields : gmap string Value) : M unit :=
  await (UsersUpdate uid fields) (fun _ w =>
    (Resolved tt,
     mkWorld (codesRef w)
             (<[uid := fields ∪ default ∅ (usersRef w !! uid)]> (usersRef w))
             (auth w) (calls w))).

(* usersRef.child(uid).set(fields): the child is replaced *)
Definition users_set (uid : string) (fields : gmap string Value) : M unit :=
  await (UsersSet uid fields) (fun _ w =>
    (Resolved tt,
     mkWorld (codesRef w) (<[uid := fields]> (usersRef w)) (auth w) (calls w))).

(* --- Firebase Auth ---------------------------------------------------- *)

Definition has_phone (phone : string) (kv : string * Account) : Prop :=
  acc_phoneNumber kv.2 = Some phone.

#[global] Instance has_phone_dec phone kv : Decision (has_phone phone kv) :=
  decide (acc_phoneNumber kv.2 = Some phone).

(* the account registered under a phone number, if any *)
Definition find_by_phone (phone : string) (dir : gmap string Account)
  : option UserRecord :=
  (fun ikv => mkUserRecord (ikv.2).1 (ikv.2).2)
    <$> list_find (has_phone phone) (map_to_list dir).

Definition user_not_found : Err :=
  mkErr "auth/user-not-found"
        "There is no user record corresponding to the provided identifier.".

Definition phone_number_already_exists : Err :=
  mkErr "auth/phone-number-already-exists"
        "The user with the provided phone number already exists.".

(* admin.auth().getUserByPhoneNumber(phone) *)
Definition getUserByPhoneNumber (phone : string) : M UserRecord :=
  await (GetUserByPhoneNumber phone) (fun _ w =>
    match find_by_phone phone (auth w) with
    | Some u => (Resolved u, w)
    | None => (Rejected user_not_found, w)
    end).

(* admin.auth().updateUser(uid, {displayName}) *)
Definition updateUser (uid : string) (displayName : string) : M UserRecord :=
  await (UpdateUser uid displayName) (fun _ w =>
    match auth w !! uid with
    | Some a =>
        let a' := mkAccount (acc_phoneNumber a) (Some displayName) in
        (Resolved (mkUserRecord uid a'),
         mkWorld (codesRef w) (usersRef w) (<[uid := a']> (auth w)) (calls w))
    | None => (Rejected user_not_found, w)
    end).

(* admin.auth().createUser({displayName, phoneNumber}): the service refuses
   a phone number that is in use and otherwise assigns a uid of its own
   that no account has *)
Definition createUser (displayName phone : string) : M UserRecord :=
  await (CreateUser displayName phone) (fun _ w =>
    match find_by_phone phone (auth w) with
    | Some _ => (Rejected phone_number_already_exists, w)
    | None =>
        let uid := fresh (dom (auth w)) in
        let a := mkAccount (Some phone) (Some displayName) in
        (Resolved (mkUserRecord uid a),
         mkWorld (codesRef w) (usersRef w) (<[uid := a]> (auth w)) (calls w))
    end).

(* admin.auth().createCustomToken(uid) *)
Definition createCustomToken (uid : string) : M string :=
  await (CreateCustomToken uid) (fun env w => (Resolved (sign env uid), w)).

(* --- WhatsApp Cloud API ----------------------------------------------- *)

(* axios.post(url, payload, headers): rejects on a network failure or a
   non-2xx status, which is the environment's choice *)
Definition axios_post (phoneId accessToken to templateName lang code : string)
  : M unit :=
  await (AxiosPost phoneId accessToken to templateName lang code)
        (fun _ w => (Resolved tt, w)).

(* ===================================================================== *)
(* 5. The cloud functions                                                *)
(* ===================================================================== *)

(* !x for a body field: undefined and the empty string are falsy *)
Definition falsy (x : option string) : bool :=
  match x with
  | None => true
  | Some s => String.eqb s ""
  end.

(* the string held by a field that passed the !x test *)
Definition str (x : option string) : string := default "" x.

(* x || d for an optional configuration string *)
Definition or_default (x : option string) (d : string) : string :=
  if falsy x then d else str x.

(* process.env.NODE_ENV === "development" ? error.message : undefined *)
Definition details_of (env : Env) (error : Err) : option string :=
  match NODE_ENV env with
  | Some v => if String.eqb v "development" then Some (message error) else None
  | None => None
  end.

Definition error_response (st : Z) (msg : string) : Response :=
  mkResponse st (ErrorResponse msg None).

(* ---- numbers -------------------------------------------------------- *)
(* A JavaScript number is an IEEE 754 double.  A finite double is
   modelled by the rational it denotes, and an arithmetic operation is
   the exact operation on rationals followed by round53, the rounding to
   the nearest double with ties to even.  Overflow to Infinity is left
   out: the numbers of this program stay below 2^20. *)

(* 2^e *)
Definition pow2 (e : Z) : Q := Qpower 2 e.

(* the nearest integer, a tie going to the even neighbour *)
Definition rne (t : Q) : Z :=
  let f := Qfloor t in
  match Qcompare (t - inject_Z f) (1 # 2) with
  | Lt => f
  | Gt => f + 1
  | Eq => if Z.even f then f else f + 1
  end.

(* the integer part of the binary logarithm of a positive rational n/d,
   read off the integer part of n * 2^K / d for a K with d <= 2^K *)
Definition exponent (q : Q) : Z :=
  let K := Z.log2_up (Zpos (Qden q)) in
  Z.log2 (Qnum q * 2 ^ K / Zpos (Qden q)) - K.

(* the exponent of the double's binade: subnormal numbers share the
   least exponent, -1022 *)
Definition binade (q : Q) : Z := Z.max (exponent q) (-1022).

(* a positive rational rounded to 53 significant bits: the nearest
   multiple of the unit in the last place of its binade *)
Definition round_pos (q : Q) : Q :=
  let ulp := pow2 (binade q - 52) in
  (inject_Z (rne (q / ulp)) * ulp)%Q.

Definition round53 (q : Q) : Q :=
  match Qcompare q 0 with
  | Gt => round_pos q
  | Lt => (- round_pos (- q))%Q
  | Eq => 0%Q
  end.

(* the rationals that are doubles *)
Definition double (q : Q) : Prop := (round53 q == q)%Q.

(* Math.floor(100000 + Math.random() * 900000).toString(): the product
   and the sum are each rounded to a double; the floor of a double is an
   integer, which toString writes in decimal digits *)
Definition generate_code (r : Q) : string :=
  pretty (Qfloor (round53 (100000 + round53 (r * 900000)))).

(* codesRef.push().key: a key no child of the path has *)
Definition push_key (w : World) : string := fresh (dom (codesRef w)).

(* async function sendWhatsAppVerificationCode(phoneNumber, code):
   the whole body sits in a try whose catch returns false *)
Definition sendWhatsAppVerificationCode (phoneNumber code : string) : M bool :=
  try_catch
    (fun env =>
       let phoneId := or_default (whatsapp env ≫= phone_id) "TEST_PHONE_ID" in
       let accessToken := or_default (whatsapp env ≫= token) "TEST_TOKEN" in
       let templateName :=
         or_default (whatsapp env ≫= template_name) "verification" in
       let lang := or_default (whatsapp env ≫= language) "en" in
       (if String.eqb phoneId "TEST_PHONE_ID"
           || String.eqb accessToken "TEST_TOKEN"
        then ret true
        else
          axios_post phoneId accessToken phoneNumber templateName lang code ;;;
          ret true) env)
    (fun error => ret false).

(* the async callback of requestVerification, inside its outer try *)
Definition requestVerification_try (req : Request) : M Response :=
  if negb (String.eqb (method req) "POST") then
    ret (error_response 405 "Method not allowed")
  else if falsy (body_phoneNumber req) then
    ret (error_response 400 "Phone number is required")
  else
    let formattedPhoneNumber := formatPhoneNumber (str (body_phoneNumber req)) in
    fun env s =>
      (let verificationCode := generate_code (random env) in
       let codeId := push_key (world s) in
       t_expires <- Date_now ;;
       t_created <- Date_now ;;
       let verificationData :=
         mkVerificationData formattedPhoneNumber verificationCode
                            (t_expires + 5 * 60 * 1000) t_created in
       codes_set codeId verificationData ;;;
       try_catch
         (sendWhatsAppVerificationCode formattedPhoneNumber verificationCode ;;;
          ret tt)
         (fun whatsappError => ret tt) ;;;
       ret (mkResponse 200
              (SuccessResponse (Some codeId) None None None None))) env s.

(* the callback handed to corsHandler by requestVerification: the outer
   try and its catch *)
Definition requestVerification_handler (req : Request) : M Response :=
  try_catch (requestVerification_try req)
    (fun error env =>
       ret (mkResponse 500
              (ErrorResponse "Failed to send verification code"
                             (details_of env error))) env).

(* the object passed to usersRef.child(uid).update *)
Definition name_fields (firstName lastName displayName : string)
  : gmap string Value :=
  {[ "firstName" := VString firstName;
     "lastName" := VString lastName;
     "displayName" := VString displayName ]}.

(* const userData: UserData = {...} *)
Definition userData (firstName lastName phone uid : string) (createdAt : Z)
  : gmap string Value :=
  {[ "firstName" := VString firstName;
     "lastName" := VString lastName;
     "phoneNumber" := VString phone;
     "uid" := VString uid;
     "role" := VString "user";
     "createdAt" := VNumber createdAt ]}.

(* the body of the inner try of verifyCode: find the user, update it *)
Definition update_identity (phone firstName lastName : string) : M UserRecord :=
  let displayName := firstName ++ " " ++ lastName in
  userRecord <- getUserByPhoneNumber phone ;;
  updateUser (uid userRecord) displayName ;;;
  users_update (uid userRecord)
    (name_fields firstName lastName displayName) ;;;
  ret userRecord.

(* the body of the if in the inner catch: create the user *)
Definition create_identity (phone firstName lastName : string) : M UserRecord :=
  let displayName := firstName ++ " " ++ lastName in
  userRecord <- createUser displayName phone ;;
  t_created <- Date_now ;;
  users_set (uid userRecord)
    (userData firstName lastName phone (uid userRecord) t_created) ;;;
  ret userRecord.

(* the create-or-update block of verifyCode (its inner try/catch) *)
Definition resolve_identity (phone firstName lastName : string) : M UserRecord :=
  try_catch
    (update_identity phone firstName lastName)
    (fun error =>
       let errorCode := err_code error in
       if String.eqb errorCode "auth/user-not-found"
          || String.eqb errorCode "auth/invalid-phone-number"
       then create_identity phone firstName lastName
       else throw error).

(* the async callback of verifyCode, inside its outer try *)
Definition verifyCode_try (req : Request) : M Response :=
  if negb (String.eqb (method req) "POST") then
    ret (error_response 405 "Method not allowed")
  else if falsy (body_codeId req) || falsy (body_code req) then
    ret (error_response 400 "Code ID and verification code are required")
  else if falsy (body_firstName req) || falsy (body_lastName req) then
    ret (error_response 400 "First name and last name are required")
  else
    let codeId := str (body_codeId req) in
    let firstName := str (body_firstName req) in
    let lastName := str (body_lastName req) in
    verificationSnap <- codes_once codeId ;;
    match verificationSnap with
    | None => ret (error_response 400 "Verification code not found")
    | Some verificationData =>
        now <- Date_now ;;
        if (expiresAt verificationData <? now)%Z then
          codes_remove codeId ;;;
          ret (error_response 400 "Verification code has expired")
        else if negb (String.eqb (code verificationData) (str (body_code req)))
        then ret (error_response 400 "Incorrect verification code")
        else
          userRecord <-
            resolve_identity (phoneNumber verificationData) firstName lastName ;;
          codes_remove codeId ;;;
          customToken <- createCustomToken (uid userRecord) ;;
          ret (mkResponse 200
                 (SuccessResponse None (Some (uid userRecord))
                    (Some customToken) (Some firstName) (Some lastName)))
    end.

(* the callback handed to corsHandler by verifyCode: the outer try and its
   catch *)
Definition verifyCode_handler (req : Request) : M Response :=
  try_catch (verifyCode_try req)
    (fun error env =>
       ret (mkResponse 500
              (ErrorResponse "Failed to verify code or create user"
                             (details_of env error))) env).

(* expiredCodesSnap.forEach(child => { updates[child.key] = null }) *)
Definition collect_updates (snap : gmap string VerificationData)
  : gmap string () :=
  map_fold (fun key _ updates => <[key := tt]> updates) ∅ snap.

(* export const cleanupExpiredCodes: the scheduled callback; it has no
   try/catch of its own, a rejected call rejects the run *)
Definition cleanupExpiredCodes_run : M unit :=
  now <- Date_now ;;
  expiredCodesSnap <- codes_endAt now ;;
  let updates := collect_updates expiredCodesSnap in
  if (0 <? size updates)%nat then codes_update updates
  else ret tt.

(* s.toUpperCase(), on the letters a .. z *)
Definition upper (c : ascii) : ascii :=
  let n := N_of_ascii c in
  if ((97 <=? n) && (n <=? 122))%N then ascii_of_N (n - 32) else c.

Fixpoint toUpperCase (s : string) : string :=
  match s with
  | EmptyString => EmptyString
  | String c rest => String (upper c) (toUpperCase rest)
  end.

(* the test of the cors middleware for a preflight request:
   req.method.toUpperCase() === "OPTIONS" *)
Definition preflight (req : Request) : bool :=
  String.eqb (toUpperCase (method req)) "OPTIONS".

(* const corsHandler = cors({origin: true}); corsHandler(req, res, next).
   A preflight request is answered by the middleware itself, with status
   204 and no body, and next is not called; any other request goes on to
   next.  The headers the middleware sets are not modelled. *)
Definition corsHandler (req : Request) (next : M Response) : M Response :=
  if preflight req then ret (mkResponse 204 EmptyBody) else next.

(* One invocation: the cursors into the environment start at zero; the
   world that results is what the next invocation sees. *)
Definition invoke {A} (m : M A) (env : Env) (w : World) : Outcome A * World :=
  let '(o, s) := m env (mkSt w 0 0) in (o, world s).

(* An HTTP function always answers: its outer catch turns a rejection
   into the 500 response, so the Rejected branch below is never taken. *)
Definition respond (m : M Response) (env : Env) (w : World) : Response * World :=
  match invoke m env w with
  | (Resolved r, w') => (r, w')
  | (Rejected e, w') => (error_response 500 (message e), w')
  end.

(* export const requestVerification *)
Definition requestVerification (env : Env) (req : Request) (w : World)
  : Response * World :=
  respond (corsHandler req (requestVerification_handler req)) env w.

(* export const verifyCode *)
Definition verifyCode (env : Env) (req : Request) (w : World)
  : Response * World :=
  respond (corsHandler req (verifyCode_handler req)) env w.

(* export const cleanupExpiredCodes *)
Definition cleanupExpiredCodes (env : Env) (w : World) : Outcome unit * World :=
  invoke cleanupExpiredCodes_run env w.

(* ===================================================================== *)
(* 5b. Vocabulary of the statements                                      *)
(* ===================================================================== *)

(* a POST to verifyCode whose four body fields are all truthy: the
   request passes the method test and the two presence tests *)
Definition well_formed_verify (req : Request) : bool :=
  String.eqb (method req) "POST"
  && negb (falsy (body_codeId req)) && negb (falsy (body_code req))
  && negb (falsy (body_firstName req)) && negb (falsy (body_lastName req)).

(* a POST to requestVerification with a truthy phone number *)
Definition well_formed_request (req : Request) : bool :=
  String.eqb (method req) "POST" && negb (falsy (body_phoneNumber req)).

(* no two accounts of the directory carry the same phone number *)
Definition phone_unique (dir : gmap string Account) : Prop :=
  forall k1 k2 a1 a2 p,
    dir !! k1 = Some a1 -> dir !! k2 = Some a2 ->
    acc_phoneNumber a1 = Some p -> acc_phoneNumber a2 = Some p -> k1 = k2.

(* the environment rejects none of the awaited calls *)
Definition no_fault (env : Env) : Prop := forall n, fault env n = None.

(* the calls sendWhatsAppVerificationCode issues under a configuration:
   none with the TEST_ fallbacks, otherwise the one POST *)
Definition delivery_calls (env : Env) (phone code : string) : list Call :=
  let phoneId := or_default (whatsapp env ≫= phone_id) "TEST_PHONE_ID" in
  let accessToken := or_default (whatsapp env ≫= token) "TEST_TOKEN" in
  let templateName := or_default (whatsapp env ≫= template_name) "verification" in
  let lang := or_default (whatsapp env ≫= language) "en" in
  if String.eqb phoneId "TEST_PHONE_ID" || String.eqb accessToken "TEST_TOKEN"
  then []
  else [AxiosPost phoneId accessToken phone templateName lang code].

(* the record requestVerification builds in a given world *)
Definition issued_record (env : Env) (req : Request) : VerificationData :=
  mkVerificationData (formatPhoneNumber (str (body_phoneNumber req)))
                     (generate_code (random env))
                     (clock env 0 + 300000) (clock env 1).

Definition set_codes (c : gmap string VerificationData) (w : World) : World :=
  mkWorld c (usersRef w) (auth w) (calls w).

Definition log_calls (cs : list Call) (w : World) : World :=
  mkWorld (codesRef w) (usersRef w) (auth w) (calls w ++ cs).

(* every run of m started in a world satisfying I ends in one, whether it
   resolves or rejects *)
Definition preserves {A} (I : World -> Prop) (m : M A) : Prop :=
  forall env s o s', I (world s) -> m env s = (o, s') -> I (world s').

(* the two invariants the statements need *)
Definition codes_are (c : gmap string VerificationData) (w : World) : Prop :=
  codesRef w = c.

Definition directory_unique (w : World) : Prop := phone_unique (auth w).

(* the status and message pairs requestVerification can answer with *)
Definition request_errors : list (Z * string) :=
  [ (405, "Method not allowed");
    (400, "Phone number is required");
    (500, "Failed to send verification code") ].

(* the status and message pairs verifyCode can answer with *)
Definition verify_errors : list (Z * string) :=
  [ (405, "Method not allowed");
    (400, "Code ID and verification code are required");
    (400, "First name and last name are required");
    (400, "Verification code not found");
    (400, "Verification code has expired");
    (400, "Incorrect verification code");
    (500, "Failed to verify code or create user") ].

(* the string contains no '/': as a codeId it names a child of the
   verificationCodes path and not a path below or beside one *)
Fixpoint slash_free (s : string) : bool :=
  match s with
  | EmptyString => true
  | String c rest => negb (Ascii.eqb c "/") && slash_free rest
  end.

(* the same environment with another script of rejections *)
Definition with_fault (env : Env) (f : nat -> option Err) : Env :=
  mkEnv (clock env) f (random env) (NODE_ENV env) (whatsapp env) (sign env).

(* ===================================================================== *)
(* 5c. Sample worlds and environments                                    *)
(* ===================================================================== *)

Module Sample.

(* a clock that advances one millisecond per reading, from 1000 *)
Definition ticking : nat -> Z := fun n => 1000 + Z.of_nat n.

(* a clock that stands still at t *)
Definition frozen (t : Z) : nat -> Z := fun _ => t.

Definition never : nat -> option Err := fun _ => None.

(* only the n-th awaited call is rejected *)
Definition only (n : nat) (e : Err) : nat -> option Err :=
  fun k => if Nat.eqb k n then Some e else None.

Definition gateway_down : Err :=
  mkErr "ERR_BAD_RESPONSE" "Request failed with status code 503".

Definition configured : option WhatsAppConfig :=
  Some (mkWhatsAppConfig (Some "106540352242922") (Some "EAAG") None None).

Definition signer : string -> string := fun uid => "jwt:" ++ uid.

(* a configured deployment whose clock ticks and whose calls all succeed *)
Definition env_ok : Env :=
  mkEnv ticking never (1 # 2) None configured signer.

(* the same, but the gateway rejects the POST (the second awaited call of
   requestVerification) *)
Definition env_gateway_down : Env :=
  mkEnv ticking (only 1 gateway_down) (1 # 2) None configured signer.

(* all calls succeed and every clock reading is t *)
Definition env_at (t : Z) : Env :=
  mkEnv (frozen t) never (1 # 2) None configured signer.

Definition empty_world : World := mkWorld ∅ ∅ ∅ [].

Definition request_code : Request :=
  mkRequest "POST" (Some "0712345678") None None None None.

Definition record : VerificationData :=
  mkVerificationData "+712345678" "550000" 301000 1001.

(* the world after request_code was served: one record, under key "0" *)
Definition one_record : World := mkWorld {[ "0" := record ]} ∅ ∅ [].

Definition verify (code firstName lastName : string) : Request :=
  mkRequest "POST" None (Some "0") (Some code) (Some firstName) (Some lastName).

Definition ada : Account := mkAccount (Some "+712345678") (Some "Ada L").

(* one record, and an account that already holds its phone number *)
Definition returning_user : World :=
  mkWorld {[ "0" := record ]}
          {[ "u1" := {[ "firstName" := VString "Ada";
                        "role" := VString "admin" ]} ]}
          {[ "u1" := ada ]} [].

(* a second record, issued later, next to the first *)
Definition later_record : VerificationData :=
  mkVerificationData "+15550109999" "123456" 900000 600000.

Definition two_records : World :=
  mkWorld {[ "0" := record; "1" := later_record ]} ∅ ∅ [].

End Sample.

(* ===================================================================== *)
(* 6. Properties of formatPhoneNumber                                    *)
(* ===================================================================== *)

Section PhoneFacts.

Implicit Types (s d x : string) (c : ascii).

Lemma startsWith_cons s c :
  startsWith s (String c "") =
  match s with
  | EmptyString => false
  | String b _ => if ascii_dec c b then true else false
  end.
Proof.
  unfold startsWith. destruct s as [|b r]; simpl; [done|].
  destruct (ascii_dec c b); [|done]. by destruct r.
Qed.

Lemma startsWith_step c r a p :
  startsWith (String c r) (String a p) =
  if ascii_dec a c then startsWith r p else false.
Proof. reflexivity. Qed.

(* a digit string that begins with '1', or that does not begin with '0',
   does not begin with "00" *)
Lemma startsWith_00 d :
  startsWith d "00" = startsWith d "0" && startsWith (substring1 d) "0".
Proof.
  destruct d as [|c r]; [reflexivity|].
  rewrite !startsWith_step. cbn [substring1].
  destruct (ascii_dec "0" c); [|reflexivity].
  destruct r; reflexivity.
Qed.

Lemma startsWith_1_not_0 d :
  startsWith d "1" = true -> startsWith d "0" = false.
Proof.
  destruct d as [|c r]; [done|]. rewrite !startsWith_step.
  destruct (ascii_dec "1" c) as [<-|]; [|done]. intros _.
  destruct (ascii_dec "0" "1"); [discriminate|done].
Qed.

Lemma startsWith_0_inv d :
  startsWith d "0" = true -> d = String "0" (substring1 d).
Proof.
  destruct d as [|c r]; [done|]. rewrite startsWith_step.
  destruct (ascii_dec "0" c) as [<-|]; done.
Qed.

Lemma startsWith_plus d : startsWith ("+" ++ d) "+" = true.
Proof. rewrite startsWith_cons. reflexivity. Qed.

Lemma replace_non_digits_all_digits s :
  all_digits (replace_non_digits s) = true.
Proof.
  induction s as [|c r IH]; simpl; [done|].
  destruct (is_digit c) eqn:Hc; simpl; [|done]. by rewrite Hc.
Qed.

Lemma replace_non_digits_id d :
  all_digits d = true -> replace_non_digits d = d.
Proof.
  induction d as [|c r IH]; simpl; [done|].
  intros [Hc Hr]%andb_prop. rewrite Hc. by rewrite IH.
Qed.

Lemma replace_non_digits_plus s :
  replace_non_digits ("+" ++ s) = replace_non_digits s.
Proof. reflexivity. Qed.

Lemma all_digits_tail c r : all_digits (String c r) = true -> all_digits r = true.
Proof. simpl. by intros [_ ?]%andb_prop. Qed.

Lemma canonical_plus d : canonical ("+" ++ d) = all_digits d.
Proof. reflexivity. Qed.

Lemma string_cons_neq c s : String c s <> s.
Proof.
  intros H. apply (f_equal String.length) in H. simpl in H. lia.
Qed.

(* the digit string of an output of rules 2 and 4 is the digit string of
   the input *)
Lemma digits_of_plus_digits s :
  replace_non_digits ("+" ++ replace_non_digits s) = replace_non_digits s.
Proof.
  rewrite replace_non_digits_plus.
  apply replace_non_digits_id, replace_non_digits_all_digits.
Qed.

(* the last branch of the function, as the code has it: an input with a
   leading '+' whose digits begin with neither '1' nor '0' comes back as
   it was, whatever else it contains *)
Lemma formatPhoneNumber_plus_kept x :
  startsWith (replace_non_digits x) "1" = false ->
  startsWith (replace_non_digits x) "0" = false ->
  startsWith x "+" = true ->
  formatPhoneNumber x = x.
Proof. unfold formatPhoneNumber. by intros -> -> ->. Qed.

Lemma formatPhoneNumber_starts_with_plus x :
  startsWith (formatPhoneNumber x) "+" = true.
Proof.
  unfold formatPhoneNumber.
  destruct (startsWith (replace_non_digits x) "1");
    [apply startsWith_plus|].
  destruct (startsWith (replace_non_digits x) "0");
    [apply startsWith_plus|].
  destruct (startsWith x "+") eqn:Hp; simpl; [done|apply startsWith_plus].
Qed.

End PhoneFacts.

Example format_local : formatPhoneNumber "0712345678" = "+712345678".
Proof. reflexivity. Qed.

Example format_us : formatPhoneNumber "1 (555) 010-9999" = "+15550109999".
Proof. reflexivity. Qed.

Example format_plus_one : formatPhoneNumber "+1 555" = "+1555".
Proof. reflexivity. Qed.

(** C2 (as stated, refuted).  The five rules as the specification words
    them do not give the function: on "+1 555" the function answers
    "+1555" (its rule 2 does not look at the '+'), the worded rules answer
    the input itself.  And the output is not always a '+' followed by
    digits only: "+44 20 7946" comes back with its blanks. *)
Lemma formatPhoneNumber_spec_rules_counterexample :
  formatPhoneNumber "+1 555" = "+1555" /\
  spec_rules "+1 555" = "+1 555" /\
  formatPhoneNumber "+44 20 7946" = "+44 20 7946" /\
  canonical (formatPhoneNumber "+44 20 7946") = false.
Proof. repeat split; reflexivity. Qed.

(** C2 (amended).  For every input, with digits the input stripped of its
    non-digit characters: if digits begins with '1' the output is '+'
    followed by digits, whether or not the input had a '+'; else if digits
    begins with '0' the output is '+' followed by digits without that '0';
    else if the input has no leading '+' the output is '+' followed by
    digits; else an input that already is a '+' followed by digits only
    comes back unchanged.  The output always begins with '+', and in each of
    the cases just listed it is a '+' followed by digits only. *)
Theorem formatPhoneNumber_rules (x : string) :
  let digits := replace_non_digits x in
  all_digits digits = true /\
  startsWith (formatPhoneNumber x) "+" = true /\
  (if startsWith digits "1" then formatPhoneNumber x = "+" ++ digits
   else if startsWith digits "0" then
     formatPhoneNumber x = "+" ++ substring1 digits
   else if negb (startsWith x "+") then formatPhoneNumber x = "+" ++ digits
   else if canonical x then formatPhoneNumber x = x
   else True) /\
  (if startsWith digits "1" || startsWith digits "0"
      || negb (startsWith x "+") || canonical x
   then canonical (formatPhoneNumber x) = true
   else True).
Proof.
  intros digits.
  pose proof (replace_non_digits_all_digits x) as Hd. fold digits in Hd.
  split; [done|]. split; [apply formatPhoneNumber_starts_with_plus|].
  unfold formatPhoneNumber. fold digits.
  destruct (startsWith digits "1") eqn:H1; cbn [orb negb].
  { split; [done|]. by rewrite canonical_plus. }
  destruct (startsWith digits "0") eqn:H0; cbn [orb negb].
  { split; [done|]. rewrite canonical_plus.
    destruct digits as [|c r]; [done|]. by eapply all_digits_tail. }
  destruct (startsWith x "+") eqn:Hp; cbn [orb negb].
  - destruct (canonical x) eqn:Hc; done.
  - split; [done|]. by rewrite canonical_plus.
Qed.

(** C8 (as stated, refuted).  Normalising twice is not normalising once on
    "0044": the first pass drops one leading zero, the second pass the
    next one. *)
Lemma formatPhoneNumber_idempotent_counterexample :
  formatPhoneNumber "0044" = "+044" /\
  formatPhoneNumber (formatPhoneNumber "0044") = "+44" /\
  formatPhoneNumber (formatPhoneNumber "0044") <> formatPhoneNumber "0044".
Proof. repeat split; try reflexivity. discriminate. Qed.

(** C8 (amended).  formatPhoneNumber(formatPhoneNumber(x)) equals
    formatPhoneNumber(x) exactly for the inputs x whose digit string does
    not begin with "00"; in particular it is idempotent on all of those. *)
Theorem formatPhoneNumber_idempotent_iff (x : string) :
  String.eqb (formatPhoneNumber (formatPhoneNumber x)) (formatPhoneNumber x)
  = negb (startsWith (replace_non_digits x) "00").
Proof.
  pose proof (replace_non_digits_all_digits x) as Hd.
  rewrite startsWith_00.
  unfold formatPhoneNumber at 2 3.
  destruct (startsWith (replace_non_digits x) "1") eqn:H1.
  { rewrite (startsWith_1_not_0 _ H1). cbn [andb negb].
    apply String.eqb_eq.
    unfold formatPhoneNumber. by rewrite digits_of_plus_digits, H1. }
  destruct (startsWith (replace_non_digits x) "0") eqn:H0; cbn [andb].
  { apply startsWith_0_inv in H0. rewrite H0 in Hd.
    apply all_digits_tail in Hd.
    set (r := substring1 (replace_non_digits x)) in *.
    unfold formatPhoneNumber. rewrite replace_non_digits_plus.
    rewrite (replace_non_digits_id r Hd).
    destruct (startsWith r "1") eqn:Hr1.
    { rewrite (startsWith_1_not_0 _ Hr1). apply String.eqb_refl. }
    destruct (startsWith r "0") eqn:Hr0; cbn [negb].
    - apply String.eqb_neq. apply startsWith_0_inv in Hr0.
      intros [=H]. rewrite Hr0 in H at 2.
      symmetry in H. by apply string_cons_neq in H.
    - rewrite startsWith_plus. cbn [negb]. apply String.eqb_refl. }
  cbn [negb]. apply String.eqb_eq.
  destruct (startsWith x "+") eqn:Hp; cbn [negb].
  - by apply formatPhoneNumber_plus_kept.
  - apply formatPhoneNumber_plus_kept;
      rewrite ?digits_of_plus_digits; auto using startsWith_plus.
Qed.

(* ===================================================================== *)
(* 7. Running the monad                                                  *)
(* ===================================================================== *)

(* unfolds the plumbing of the monad, not the services *)
Ltac run :=
  cbv beta iota zeta delta [bind ret throw try_catch Date_now await];
  cbn [world reads awaits codesRef usersRef auth calls log_call fst snd].

(* a POST is not a preflight request: the middleware hands it on *)
Lemma corsHandler_post req (next : M Response) :
  String.eqb (method req) "POST" = true -> corsHandler req next = next.
Proof.
  intros Hm%String.eqb_eq. unfold corsHandler, preflight. by rewrite Hm.
Qed.

(* what the middleware answers to a preflight request *)
Lemma corsHandler_preflight req (next : M Response) env w :
  preflight req = true ->
  respond (corsHandler req next) env w = (mkResponse 204 EmptyBody, w).
Proof. unfold corsHandler. by intros ->. Qed.

Lemma preflight_not_post req :
  preflight req = true -> String.eqb (method req) "POST" = false.
Proof.
  unfold preflight. destruct (String.eqb (method req) "POST") eqn:Hm; [|done].
  apply String.eqb_eq in Hm. by rewrite Hm.
Qed.

(* sendWhatsAppVerificationCode never rejects and touches nothing but the
   trace, whatever the gateway answers *)
Lemma sendWhatsAppVerificationCode_contained phone code env s :
  exists b,
    sendWhatsAppVerificationCode phone code env s =
    (Resolved b,
     mkSt (log_calls (delivery_calls env phone code) (world s)) (reads s)
          (awaits s + length (delivery_calls env phone code))).
Proof.
  unfold sendWhatsAppVerificationCode, delivery_calls, try_catch.
  destruct (_ || _).
  - exists true. unfold ret, log_calls. cbn [length].
    rewrite app_nil_r, Nat.add_0_r. by destruct s as [[]].
  - unfold bind, axios_post, await. cbn [length].
    rewrite Nat.add_1_r.
    destruct (fault env (awaits s)); [exists false | exists true]; done.
Qed.

Lemma well_formed_request_inv req :
  well_formed_request req = true ->
  String.eqb (method req) "POST" = true /\ falsy (body_phoneNumber req) = false.
Proof.
  unfold well_formed_request. intros [? ?%negb_true_iff]%andb_prop. done.
Qed.

(* ===================================================================== *)
(* 8. The Issuer: requestVerification                                    *)
(* ===================================================================== *)

(* The whole behaviour of a well-formed request: it depends on the
   environment through the two clock readings, the random draw, the
   configuration, and the answer to the one database write; the answer
   the gateway gives to the POST does not occur in it. *)
Lemma requestVerification_run env req w :
  well_formed_request req = true ->
  let codeId := push_key w in
  let data := issued_record env req in
  requestVerification env req w =
  match fault env 0 with
  | None =>
      (mkResponse 200 (SuccessResponse (Some codeId) None None None None),
       log_calls
         (CodesSet codeId data
            :: delivery_calls env (phoneNumber data) (code data))
         (set_codes (<[codeId := data]> (codesRef w)) w))
  | Some e =>
      (mkResponse 500
         (ErrorResponse "Failed to send verification code" (details_of env e)),
       log_calls [CodesSet codeId data] w)
  end.
Proof.
  intros [Hm Hp]%well_formed_request_inv codeId data.
  unfold requestVerification. rewrite (corsHandler_post _ _ Hm).
  unfold respond, invoke, requestVerification_handler,
    requestVerification_try.
  rewrite Hm, Hp. cbn [negb]. unfold codes_set. run.
  change (clock env 0 + 5 * 60 * 1000) with (clock env 0 + 300000).
  fold codeId. fold data.
  destruct (fault env 0) as [e|]; [done|]. run.
  match goal with
  | |- context [sendWhatsAppVerificationCode ?p ?c ?e ?s] =>
      destruct (sendWhatsAppVerificationCode_contained p c e s) as [b ->]
  end.
  run. unfold log_calls, set_codes. run.
  by rewrite <- app_assoc.
Qed.

Example issuer_example :
  requestVerification Sample.env_ok Sample.request_code Sample.empty_world =
  (mkResponse 200 (SuccessResponse (Some "0") None None None None),
   mkWorld {[ "0" := Sample.record ]} ∅ ∅
     [CodesSet "0" Sample.record;
      AxiosPost "106540352242922" "EAAG" "+712345678" "verification" "en"
                "550000"]).
Proof. vm_compute. reflexivity. Qed.

(** C3.  A well-formed request writes its record before anything is sent:
    when the write is acknowledged the answer is 200 with the codeId under
    which the record now sits, and the trace shows the write followed by
    the delivery attempt; when the write is rejected nothing is sent at
    all.  The answer of the gateway plays no role: every environment that
    differs only in the rejections after the write gives the same
    response and the same world. *)
Theorem requestVerification_delivery_contained env req w :
  well_formed_request req = true ->
  let codeId := push_key w in
  let data := issued_record env req in
  (fault env 0 = None ->
   exists w',
     requestVerification env req w =
       (mkResponse 200 (SuccessResponse (Some codeId) None None None None), w')
     /\ codesRef w' !! codeId = Some data
     /\ calls w' =
        (calls w ++ CodesSet codeId data
                    :: delivery_calls env (phoneNumber data) (code data))%list)
  /\ (forall e, fault env 0 = Some e ->
      exists w',
        requestVerification env req w =
          (mkResponse 500
             (ErrorResponse "Failed to send verification code"
                            (details_of env e)), w')
        /\ codesRef w' = codesRef w
        /\ calls w' = (calls w ++ [CodesSet codeId data])%list)
  /\ (forall f, f 0%nat = fault env 0 ->
      requestVerification (with_fault env f) req w
      = requestVerification env req w).
Proof.
  intros Hwf codeId data. split_and!.
  - intros H0. eexists. split.
    + rewrite (requestVerification_run _ _ _ Hwf), H0. reflexivity.
    + cbn [log_calls set_codes codesRef calls]. split; [|done].
      apply lookup_insert_eq.
  - intros e H0. eexists. split.
    + rewrite (requestVerification_run _ _ _ Hwf), H0. reflexivity.
    + done.
  - intros f Hf.
    rewrite !(requestVerification_run _ _ _ Hwf).
    cbn [with_fault fault]. rewrite Hf. reflexivity.
Qed.

Lemma requestVerification_delivery_contained_witness :
  well_formed_request Sample.request_code = true /\
  requestVerification Sample.env_gateway_down Sample.request_code
                      Sample.empty_world
  = requestVerification Sample.env_ok Sample.request_code Sample.empty_world.
Proof.
  split; [reflexivity|].
  refine (proj2 (proj2
    (requestVerification_delivery_contained Sample.env_ok Sample.request_code
       Sample.empty_world _)) (Sample.only 1 Sample.gateway_down) _);
    reflexivity.
Defined.

(** C9 (as stated, refuted).  The two timestamps come from two readings of
    the clock, expiresAt from the first and createdAt from the second.
    With a clock that moves on by one millisecond between them the
    persisted record has expiresAt 301000 and createdAt 1001, which is not
    createdAt + 300000. *)
Lemma requestVerification_ttl_counterexample :
  exists w' data,
    requestVerification Sample.env_ok Sample.request_code Sample.empty_world
    = (mkResponse 200 (SuccessResponse (Some "0") None None None None), w')
    /\ codesRef w' !! "0" = Some data
    /\ expiresAt data = 301000 /\ createdAt data = 1001
    /\ expiresAt data <> createdAt data + 300000.
Proof.
  eexists _, Sample.record. split; [apply issuer_example|].
  split; [reflexivity|]. cbn. repeat split. discriminate.
Qed.

(** C9 (amended).  Every record persisted by the Issuer has expiresAt equal
    to the first clock reading of the request plus 300000 milliseconds
    (5 minutes) and createdAt equal to the second clock reading; so
    expiresAt = createdAt + 300000 holds whenever the two readings
    coincide. *)
Theorem requestVerification_ttl env req w resp w' codeId :
  requestVerification env req w = (resp, w') ->
  json resp = SuccessResponse (Some codeId) None None None None ->
  exists data,
    codesRef w' !! codeId = Some data
    /\ expiresAt data = clock env 0 + 5 * 60 * 1000
    /\ createdAt data = clock env 1
    /\ (clock env 1 = clock env 0 ->
        expiresAt data = createdAt data + 300000).
Proof.
  intros Hrun Hjson.
  destruct (well_formed_request req) eqn:Hwf.
  - rewrite (requestVerification_run _ _ _ Hwf) in Hrun.
    destruct (fault env 0); simplify_eq/=.
    exists (issued_record env req). split; [apply lookup_insert_eq|].
    cbn. split_and!; [done..|]. by intros ->.
  - exfalso. revert Hrun. unfold requestVerification.
    destruct (preflight req) eqn:Hpre.
    { rewrite (corsHandler_preflight _ _ _ _ Hpre).
      intros [= <- <-]. discriminate. }
    unfold corsHandler. rewrite Hpre.
    unfold respond, invoke, requestVerification_handler,
      requestVerification_try, well_formed_request in *.
    destruct (String.eqb (method req) "POST"); cbn [negb andb] in *.
    + apply negb_false_iff in Hwf. rewrite Hwf. run.
      intros [= <- <-]. discriminate.
    + run. intros [= <- <-]. discriminate.
Qed.

Lemma requestVerification_ttl_witness :
  exists data,
    codesRef (requestVerification (Sample.env_at 5000) Sample.request_code
                                  Sample.empty_world).2 !! "0" = Some data
    /\ expiresAt data = 5000 + 5 * 60 * 1000
    /\ createdAt data = 5000
    /\ (5000 = 5000 -> expiresAt data = createdAt data + 300000).
Proof.
  apply (requestVerification_ttl (Sample.env_at 5000) Sample.request_code
           Sample.empty_world _ _ "0" eq_refl).
  reflexivity.
Defined.

(* ===================================================================== *)
(* 9. The Sweeper: cleanupExpiredCodes                                   *)
(* ===================================================================== *)

Lemma collect_updates_lookup (snap : gmap string VerificationData) k :
  collect_updates snap !! k = (fun _ => tt) <$> snap !! k.
Proof.
  unfold collect_updates.
  apply (map_fold_weak_ind
    (fun (r : gmap string ()) (m : gmap string VerificationData) =>
       r !! k = (fun _ => tt) <$> m !! k)).
  - by rewrite !lookup_empty.
  - intros i x m r _ IH. destruct (decide (i = k)) as [->|Hne].
    + by rewrite !lookup_insert_eq.
    + by rewrite !lookup_insert_ne.
Qed.

Lemma collect_updates_empty (snap : gmap string VerificationData) :
  collect_updates snap = ∅ <-> snap = ∅.
Proof.
  split.
  - intros H. apply map_eq. intros k. rewrite lookup_empty.
    assert (collect_updates snap !! k = None) as Hk
      by by rewrite H, lookup_empty.
    rewrite collect_updates_lookup in Hk. by destruct (snap !! k).
  - intros ->. reflexivity.
Qed.

(* what is left after the bulk delete: the records that expire later *)
Lemma sweep_filter (codes : gmap string VerificationData) now :
  filter (fun kv => collect_updates
                      (filter (fun kv => expiresAt kv.2 <= now) codes)
                    !! kv.1 = None) codes
  = filter (fun kv => now < expiresAt kv.2) codes.
Proof.
  apply map_filter_ext. intros k v Hk. cbn [fst snd].
  rewrite collect_updates_lookup, fmap_None, map_lookup_filter_None.
  split.
  - intros [Hn|Hn]; [congruence|]. specialize (Hn v Hk). cbn in Hn. lia.
  - intros Hlt. right. intros v' Hv'. cbn. simplify_eq. lia.
Qed.

(* the run of the Sweeper when both database calls are answered *)
Lemma cleanupExpiredCodes_sweeps env w :
  fault env 0 = None -> fault env 1 = None ->
  let now := clock env 0 in
  exists w',
    cleanupExpiredCodes env w = (Resolved tt, w')
    /\ codesRef w' = filter (fun kv => now < expiresAt kv.2) (codesRef w)
    /\ usersRef w' = usersRef w /\ auth w' = auth w
    /\ (filter (fun kv => expiresAt kv.2 <= now) (codesRef w) = ∅ ->
        w' = log_call (CodesEndAt now) w).
Proof.
  intros H0 H1 now.
  unfold cleanupExpiredCodes, invoke, cleanupExpiredCodes_run, codes_endAt.
  run. rewrite H0. run. fold now.
  set (snap := filter (fun kv => expiresAt kv.2 <= now) (codesRef w)).
  destruct (0 <? size (collect_updates snap))%nat eqn:Hsz.
  - unfold codes_update. run. rewrite H1. run.
    eexists. split; [reflexivity|]. cbn [codesRef usersRef auth].
    split; [apply sweep_filter|]. split_and!; try done.
    intros Hsnap. apply Nat.ltb_lt in Hsz.
    apply collect_updates_empty in Hsnap. rewrite Hsnap in Hsz.
    rewrite map_size_empty in Hsz. lia.
  - apply Nat.ltb_ge in Hsz.
    assert (snap = ∅) as Hsnap.
    { apply collect_updates_empty, map_size_empty_iff. lia. }
    eexists. split; [reflexivity|]. cbn [codesRef usersRef auth].
    split_and!; try done.
    symmetry. apply map_filter_id. intros k v Hk. cbn.
    destruct (decide (expiresAt v <= now)) as [Hle|]; [|lia].
    assert (snap !! k = Some v) as Hin
      by by apply map_lookup_filter_Some.
    by rewrite Hsnap, lookup_empty in Hin.
Qed.

(** C6.  When its two database calls are answered, a run of the Sweeper
    that reads the clock at now ends normally and leaves exactly the
    records with expiresAt > now: every record with expiresAt <= now is
    gone, every other record is still there with its value, no key
    appears, and the users and the accounts are as before.  When no
    record has expiresAt <= now the run issues the query and nothing
    else. *)
Theorem cleanupExpiredCodes_exact env w :
  fault env 0 = None -> fault env 1 = None ->
  let now := clock env 0 in
  exists w',
    cleanupExpiredCodes env w = (Resolved tt, w')
    /\ codesRef w' = filter (fun kv => now < expiresAt kv.2) (codesRef w)
    /\ (forall k v, codesRef w !! k = Some v -> expiresAt v <= now ->
                    codesRef w' !! k = None)
    /\ (forall k v, codesRef w !! k = Some v -> now < expiresAt v ->
                    codesRef w' !! k = Some v)
    /\ (forall k, codesRef w !! k = None -> codesRef w' !! k = None)
    /\ usersRef w' = usersRef w /\ auth w' = auth w
    /\ (filter (fun kv => expiresAt kv.2 <= now) (codesRef w) = ∅ ->
        w' = log_call (CodesEndAt now) w).
Proof.
  intros H0 H1 now.
  destruct (cleanupExpiredCodes_sweeps env w H0 H1)
    as (w' & Hrun & Hcodes & Husers & Hauth & Hnoop).
  exists w'. split; [exact Hrun|]. split; [exact Hcodes|].
  fold now in Hcodes. rewrite Hcodes. split_and!; try done.
  - intros k v Hk Hle. apply map_lookup_filter_None. right.
    intros v' ?. cbn. simplify_eq. lia.
  - intros k v Hk Hlt. by apply map_lookup_filter_Some.
  - intros k Hk. apply map_lookup_filter_None. by left.
Qed.

Lemma cleanupExpiredCodes_exact_witness :
  exists w',
    cleanupExpiredCodes (Sample.env_at 301000) Sample.two_records
    = (Resolved tt, w')
    /\ codesRef w' !! "0" = None
    /\ codesRef w' !! "1" = Some Sample.later_record.
Proof.
  destruct (cleanupExpiredCodes_exact (Sample.env_at 301000)
              Sample.two_records eq_refl eq_refl)
    as (w' & Hrun & _ & Hgone & Hkept & _).
  exists w'. split; [exact Hrun|]. split.
  - apply (Hgone "0" Sample.record); [reflexivity | discriminate].
  - apply (Hkept "1" Sample.later_record); reflexivity.
Defined.

(* ===================================================================== *)
(* 10. The Auth directory                                                *)
(* ===================================================================== *)

Lemma find_by_phone_Some p (dir : gmap string Account) u :
  find_by_phone p dir = Some u ->
  dir !! uid u = Some (account u) /\ acc_phoneNumber (account u) = Some p.
Proof.
  unfold find_by_phone. intros ([i [k a]] & Hfind & ->)%fmap_Some.
  apply list_find_Some in Hfind as (Hi & Hp & _). cbn.
  split; [|exact Hp].
  apply elem_of_map_to_list. eapply list_elem_of_lookup_2, Hi.
Qed.

Lemma find_by_phone_None p (dir : gmap string Account) :
  find_by_phone p dir = None <->
  forall k a, dir !! k = Some a -> acc_phoneNumber a <> Some p.
Proof.
  unfold find_by_phone. rewrite fmap_None, list_find_None, Forall_forall.
  split.
  - intros H k a Hk. apply (H (k, a)). by apply elem_of_map_to_list.
  - intros H [k a] Hin%elem_of_map_to_list. by apply (H k a).
Qed.

Lemma find_by_phone_taken p (dir : gmap string Account) k a :
  dir !! k = Some a -> acc_phoneNumber a = Some p ->
  is_Some (find_by_phone p dir).
Proof.
  intros Hk Hp. destruct (find_by_phone p dir) eqn:Hf; [eauto|].
  rewrite find_by_phone_None in Hf. by destruct (Hf k a Hk).
Qed.

(* under uniqueness the lookup by phone is determined *)
Lemma find_by_phone_unique p (dir : gmap string Account) k a :
  phone_unique dir -> dir !! k = Some a -> acc_phoneNumber a = Some p ->
  find_by_phone p dir = Some (mkUserRecord k a).
Proof.
  intros Hu Hk Hp.
  destruct (find_by_phone_taken p dir k a Hk Hp) as [[k' a'] Hf].
  rewrite Hf. apply find_by_phone_Some in Hf as [Hk' Hp']. cbn in *.
  assert (k' = k) as -> by eauto. by simplify_eq.
Qed.

(* renaming an account keeps the directory unique *)
Lemma phone_unique_rename (dir : gmap string Account) k a dn :
  dir !! k = Some a -> phone_unique dir ->
  phone_unique (<[k := mkAccount (acc_phoneNumber a) dn]> dir).
Proof.
  intros Hk Hu k1 k2 a1 a2 p H1 H2 Hp1 Hp2.
  apply lookup_insert_Some in H1 as [[<- <-]|[? H1]];
    apply lookup_insert_Some in H2 as [[<- <-]|[? H2]];
    cbn in *; eauto.
Qed.

(* so does a new account whose phone number nobody holds *)
Lemma phone_unique_create (dir : gmap string Account) k p dn :
  find_by_phone p dir = None -> phone_unique dir ->
  phone_unique (<[k := mkAccount (Some p) dn]> dir).
Proof.
  rewrite find_by_phone_None.
  intros Hfree Hu k1 k2 a1 a2 q H1 H2 Hp1 Hp2.
  apply lookup_insert_Some in H1 as [[<- <-]|[? H1]];
    apply lookup_insert_Some in H2 as [[<- <-]|[? H2]];
    cbn in *; simplify_eq; eauto.
  - by destruct (Hfree k2 a2 H2).
  - by destruct (Hfree k1 a1 H1).
Qed.

Lemma fresh_uid_free (dir : gmap string Account) :
  dir !! fresh (dom dir) = None.
Proof. apply not_elem_of_dom, is_fresh. Qed.

(* ===================================================================== *)
(* 11. Invariants of a computation                                       *)
(* ===================================================================== *)


Section Preserves.

Context (I : World -> Prop).
Hypothesis I_log : forall c w, I w -> I (log_call c w).

Lemma preserves_ret {A} (a : A) : preserves I (ret a).
Proof. intros env s o s' HI [= <- <-]. done. Qed.

(* the same when the value returned depends on the environment *)
Lemma preserves_ret_env {A} (f : Env -> A) :
  preserves I (fun env => ret (f env) env).
Proof. intros env s o s' HI [= <- <-]. done. Qed.

Lemma preserves_throw {A} e : preserves I (@throw A e).
Proof. intros env s o s' HI [= <- <-]. done. Qed.

Lemma preserves_Date_now : preserves I Date_now.
Proof. intros env s o s' HI [= <- <-]. done. Qed.

Lemma preserves_bind {A B} (m : M A) (k : A -> M B) :
  preserves I m -> (forall a, preserves I (k a)) -> preserves I (bind m k).
Proof.
  intros Hm Hk env s o s' HI. unfold bind.
  destruct (m env s) as [[a|e] s1] eqn:Hrun.
  - intros Hk'. eapply Hk; [|exact Hk']. eapply Hm; eauto.
  - intros [= <- <-]. eapply Hm; eauto.
Qed.

Lemma preserves_try_catch {A} (m : M A) (h : Err -> M A) :
  preserves I m -> (forall e, preserves I (h e)) ->
  preserves I (try_catch m h).
Proof.
  intros Hm Hh env s o s' HI. unfold try_catch.
  destruct (m env s) as [[a|e] s1] eqn:Hrun.
  - intros [= <- <-]. eapply Hm; eauto.
  - intros Hh'. eapply Hh; [|exact Hh']. eapply Hm; eauto.
Qed.

Lemma preserves_await {A} c (perform : Env -> World -> Outcome A * World) :
  (forall env w, I w -> I (perform env w).2) ->
  preserves I (await c perform).
Proof.
  intros Hp env s o s' HI. unfold await.
  destruct (fault env (awaits s)).
  - intros [= <- <-]. by apply I_log.
  - destruct (perform env (log_call c (world s))) as [o' w'] eqn:Hrun.
    intros [= <- <-]. cbn.
    change w' with ((o', w').2). rewrite <- Hrun. by apply Hp, I_log.
Qed.

End Preserves.

(* ===================================================================== *)
(* 12. Identity resolution                                               *)
(* ===================================================================== *)


Lemma codes_are_log c call w : codes_are c w -> codes_are c (log_call call w).
Proof. done. Qed.

Lemma directory_unique_log call w :
  directory_unique w -> directory_unique (log_call call w).
Proof. done. Qed.

#[local] Hint Resolve codes_are_log directory_unique_log : core.

Ltac preserve_with known :=
  repeat first
    [ progress intros
    | known
    | apply preserves_bind | apply preserves_try_catch
    | apply preserves_ret | apply preserves_ret_env
    | apply preserves_throw | apply preserves_Date_now
    | apply preserves_await
    | done
    | case_match ].

Ltac preserve := preserve_with fail.

(* resolving the identity never touches the verification records *)
Lemma resolve_identity_codes c phone firstName lastName :
  preserves (codes_are c) (resolve_identity phone firstName lastName).
Proof.
  unfold resolve_identity, update_identity, create_identity,
    getUserByPhoneNumber, updateUser, users_update, createUser, users_set.
  preserve.
Qed.

(* and it keeps the directory free of duplicate phone numbers *)
Lemma resolve_identity_unique phone firstName lastName :
  preserves directory_unique (resolve_identity phone firstName lastName).
Proof.
  unfold resolve_identity, update_identity, create_identity,
    getUserByPhoneNumber, updateUser, users_update, createUser, users_set.
  preserve; unfold directory_unique in *; cbn [snd auth];
    eauto using phone_unique_rename, phone_unique_create.
Qed.

(* The update path on a directory where u0 holds the phone number: either
   all three calls are answered and u0 is returned, or one is rejected and
   the phone number is still held. *)
Lemma update_identity_found phone firstName lastName env s o s' u0 :
  find_by_phone phone (auth (world s)) = Some u0 ->
  update_identity phone firstName lastName env s = (o, s') ->
  let dn := firstName ++ " " ++ lastName in
  let w := world s in
  (o = Resolved u0
   /\ auth (world s') =
      <[uid u0 := mkAccount (acc_phoneNumber (account u0)) (Some dn)]> (auth w)
   /\ usersRef (world s') =
      <[uid u0 := name_fields firstName lastName dn
                  ∪ default ∅ (usersRef w !! uid u0)]> (usersRef w))
  \/ ((exists e, o = Rejected e)
      /\ is_Some (find_by_phone phone (auth (world s')))).
Proof.
  intros Hfind Hrun dn w. revert Hrun.
  apply find_by_phone_Some in Hfind as Hu0. destruct Hu0 as [Hu0 Hp].
  unfold update_identity, getUserByPhoneNumber, updateUser, users_update.
  fold dn. subst w. run. rewrite Hfind.
  destruct (fault env (awaits s)) as [e|].
  { intros [= <- <-]. right. cbn. rewrite Hfind. eauto. }
  run. rewrite Hu0.
  destruct (fault env (S (awaits s))) as [e|].
  { intros [= <- <-]. right. cbn. rewrite Hfind. eauto. }
  run.
  assert (is_Some (find_by_phone phone
            (<[uid u0 := mkAccount (acc_phoneNumber (account u0)) (Some dn)]>
               (auth (world s))))) as Hstill.
  { eapply find_by_phone_taken; [apply lookup_insert_eq|done]. }
  destruct (fault env (S (S (awaits s)))) as [e|].
  { intros [= <- <-]. right. cbn. eauto. }
  run. intros [= <- <-]. left. done.
Qed.

(* on a directory where nobody holds the phone number the update path is
   rejected, with user-not-found unless the environment rejects the
   lookup itself, and nothing but the trace has changed *)
Lemma update_identity_absent phone firstName lastName env s o s' :
  find_by_phone phone (auth (world s)) = None ->
  update_identity phone firstName lastName env s = (o, s') ->
  o = Rejected (default user_not_found (fault env (awaits s)))
  /\ s' = mkSt (log_call (GetUserByPhoneNumber phone) (world s))
               (reads s) (S (awaits s)).
Proof.
  intros Hfind. unfold update_identity, getUserByPhoneNumber. run.
  rewrite Hfind. destruct (fault env (awaits s)); intros [= <- <-]; done.
Qed.

(* the create path is rejected when the phone number is held *)
Lemma create_identity_taken phone firstName lastName env s o s' :
  is_Some (find_by_phone phone (auth (world s))) ->
  create_identity phone firstName lastName env s = (o, s') ->
  exists e, o = Rejected e.
Proof.
  intros [u0 Hfind]. unfold create_identity, createUser. run.
  rewrite Hfind. destruct (fault env (awaits s)); intros [= <- <-]; eauto.
Qed.

(* and when it resolves it has created one account under a uid that was
   free and has written its users child whole *)
Lemma create_identity_resolved phone firstName lastName env s u s' :
  create_identity phone firstName lastName env s = (Resolved u, s') ->
  let dn := firstName ++ " " ++ lastName in
  let w := world s in
  find_by_phone phone (auth w) = None
  /\ u = mkUserRecord (fresh (dom (auth w))) (mkAccount (Some phone) (Some dn))
  /\ auth (world s') = <[uid u := account u]> (auth w)
  /\ usersRef (world s') =
     <[uid u := userData firstName lastName phone (uid u)
                         (clock env (reads s))]> (usersRef w).
Proof.
  intros Hrun dn w. revert Hrun.
  unfold create_identity, createUser, users_set. fold dn. subst w. run.
  destruct (fault env (awaits s)); [by intros [= <- <-]|].
  destruct (find_by_phone phone (auth (world s))); [by intros [= <- <-]|].
  run. destruct (fault env (S (awaits s))); [by intros [= <- <-]|].
  run. intros [= <- <-]. done.
Qed.

(* What a resolved identity resolution did.  If an account holds the phone
   number it is the one returned, its display name is the new one and its
   users child got the three name fields; otherwise one account was
   created under a uid nobody had and its users child was written whole. *)
Lemma resolve_identity_resolved phone firstName lastName env s u s' :
  resolve_identity phone firstName lastName env s = (Resolved u, s') ->
  let dn := firstName ++ " " ++ lastName in
  let w := world s in
  match find_by_phone phone (auth w) with
  | Some u0 =>
      u = u0
      /\ auth (world s') =
         <[uid u0 := mkAccount (acc_phoneNumber (account u0)) (Some dn)]> (auth w)
      /\ usersRef (world s') =
         <[uid u0 := name_fields firstName lastName dn
                     ∪ default ∅ (usersRef w !! uid u0)]> (usersRef w)
  | None =>
      u = mkUserRecord (fresh (dom (auth w))) (mkAccount (Some phone) (Some dn))
      /\ auth (world s') = <[uid u := account u]> (auth w)
      /\ usersRef (world s') =
         <[uid u := userData firstName lastName phone (uid u)
                             (clock env (reads s))]> (usersRef w)
  end.
Proof.
  intros Hrun dn w. subst w. revert Hrun.
  unfold resolve_identity, try_catch.
  destruct (update_identity phone firstName lastName env s)
    as [[u1|e] s1] eqn:Hup.
  - intros [= -> ->].
    destruct (find_by_phone phone (auth (world s))) as [u0|] eqn:Hfind.
    + destruct (update_identity_found _ _ _ _ _ _ _ _ Hfind Hup)
        as [(Ho & Ha & Hu)|[[e He] _]]; [|done].
      by simplify_eq.
    + by destruct (update_identity_absent _ _ _ _ _ _ _ Hfind Hup).
  - destruct (_ || _); [|by intros [= <- <-]].
    intros Hcreate.
    apply create_identity_resolved in Hcreate as (Hfree & -> & Ha & Hu).
    destruct (find_by_phone phone (auth (world s))) as [u0|] eqn:Hfind.
    + destruct (update_identity_found _ _ _ _ _ _ _ _ Hfind Hup)
        as [(Ho & _)|[_ Htaken]]; [done|].
      rewrite Hfree in Htaken. by destruct Htaken.
    + destruct (update_identity_absent _ _ _ _ _ _ _ Hfind Hup) as [_ ->].
      cbn in *. done.
Qed.

(* with no rejection from the environment the resolution always resolves *)
Lemma resolve_identity_no_fault phone firstName lastName env s :
  no_fault env ->
  exists u s', resolve_identity phone firstName lastName env s = (Resolved u, s').
Proof.
  intros Hnf.
  unfold resolve_identity, update_identity, create_identity,
    getUserByPhoneNumber, updateUser, users_update, createUser, users_set.
  run. rewrite !Hnf.
  destruct (find_by_phone phone (auth (world s))) as [u0|] eqn:Hfind.
  - apply find_by_phone_Some in Hfind as [Hu0 _].
    repeat (progress (run; rewrite ?Hnf, ?Hu0)). eauto.
  - run. cbn [err_code user_not_found String.eqb Ascii.eqb Bool.eqb orb].
    repeat (progress (run; rewrite ?Hnf, ?Hfind)). eauto.
Qed.

(* ===================================================================== *)
(* 13. The Verifier: verifyCode                                          *)
(* ===================================================================== *)

Lemma well_formed_verify_inv req :
  well_formed_verify req = true ->
  String.eqb (method req) "POST" = true
  /\ falsy (body_codeId req) = false /\ falsy (body_code req) = false
  /\ falsy (body_firstName req) = false /\ falsy (body_lastName req) = false.
Proof.
  unfold well_formed_verify. rewrite !andb_true_iff, !negb_true_iff. tauto.
Qed.

Ltac validated Hwf :=
  let Hm := fresh "Hmethod" in
  let H1 := fresh "Hid" in
  let H2 := fresh "Hcode" in
  let H3 := fresh "Hfirst" in
  let H4 := fresh "Hlast" in
  destruct (well_formed_verify_inv _ Hwf) as (Hm & H1 & H2 & H3 & H4);
  unfold verifyCode; rewrite (corsHandler_post _ _ Hm);
  unfold respond, invoke, verifyCode_handler, verifyCode_try;
  rewrite Hm, H1, H2, H3, H4; cbn [negb orb];
  unfold codes_once, codes_remove, createCustomToken.

(* a request that is answered 200 passed the method and presence tests *)
Lemma verifyCode_200_well_formed env req w resp w' :
  verifyCode env req w = (resp, w') -> status resp = 200 ->
  well_formed_verify req = true.
Proof.
  unfold verifyCode. destruct (preflight req) eqn:Hpre.
  { rewrite (corsHandler_preflight _ _ _ _ Hpre). by intros [= <- <-]. }
  unfold corsHandler. rewrite Hpre.
  unfold respond, invoke, verifyCode_handler, verifyCode_try,
    well_formed_verify.
  destruct (String.eqb (method req) "POST"); cbn [negb andb];
    [|run; intros [= <- <-]; done].
  destruct (falsy (body_codeId req)); cbn [negb andb orb];
    [run; intros [= <- <-]; done|].
  destruct (falsy (body_code req)); cbn [negb andb orb];
    [run; intros [= <- <-]; done|].
  destruct (falsy (body_firstName req)); cbn [negb andb orb];
    [run; intros [= <- <-]; done|].
  destruct (falsy (body_lastName req)); cbn [negb andb orb];
    [run; intros [= <- <-]; done|].
  done.
Qed.

(* step 3 of the validation: no record under the codeId *)
Lemma verifyCode_not_found env req w :
  well_formed_verify req = true -> fault env 0 = None ->
  codesRef w !! str (body_codeId req) = None ->
  verifyCode env req w =
  (error_response 400 "Verification code not found",
   log_call (CodesOnce (str (body_codeId req))) w).
Proof.
  intros Hwf H0 Hnone. validated Hwf. run. rewrite H0. run.
  rewrite Hnone. run. reflexivity.
Qed.

(* step 4: the record is past its expiry *)
Lemma verifyCode_expired_run env req w v :
  well_formed_verify req = true -> fault env 0 = None ->
  codesRef w !! str (body_codeId req) = Some v ->
  expiresAt v < clock env 0 ->
  let codeId := str (body_codeId req) in
  verifyCode env req w =
  match fault env 1 with
  | None =>
      (error_response 400 "Verification code has expired",
       log_calls [CodesOnce codeId; CodesRemove codeId]
                 (set_codes (delete codeId (codesRef w)) w))
  | Some e =>
      (mkResponse 500 (ErrorResponse "Failed to verify code or create user"
                                     (details_of env e)),
       log_calls [CodesOnce codeId; CodesRemove codeId] w)
  end.
Proof.
  intros Hwf H0 Hsome Hlt codeId. subst codeId. validated Hwf.
  run. rewrite H0. run. rewrite Hsome. run.
  rewrite (proj2 (Z.ltb_lt _ _) Hlt). run.
  destruct (fault env 1); run;
    unfold log_call, log_calls, set_codes; cbn [codesRef usersRef auth calls];
    by rewrite <- app_assoc.
Qed.

(* step 5: the record is live and the submitted code differs *)
Lemma verifyCode_incorrect_run env req w v :
  well_formed_verify req = true -> fault env 0 = None ->
  codesRef w !! str (body_codeId req) = Some v ->
  clock env 0 <= expiresAt v ->
  code v <> str (body_code req) ->
  verifyCode env req w =
  (error_response 400 "Incorrect verification code",
   log_call (CodesOnce (str (body_codeId req))) w).
Proof.
  intros Hwf H0 Hsome Hle Hne. validated Hwf.
  run. rewrite H0. run. rewrite Hsome. run.
  rewrite (proj2 (Z.ltb_ge _ _) Hle).
  rewrite (proj2 (String.eqb_neq _ _) Hne). run. reflexivity.
Qed.

(* step 6: the record is live and the code is the stored one *)
Lemma verifyCode_accept_run env req w v :
  well_formed_verify req = true -> fault env 0 = None ->
  codesRef w !! str (body_codeId req) = Some v ->
  clock env 0 <= expiresAt v ->
  code v = str (body_code req) ->
  let codeId := str (body_codeId req) in
  let firstName := str (body_firstName req) in
  let lastName := str (body_lastName req) in
  let failed e :=
    mkResponse 500 (ErrorResponse "Failed to verify code or create user"
                                  (details_of env e)) in
  verifyCode env req w =
  match resolve_identity (phoneNumber v) firstName lastName env
          (mkSt (log_call (CodesOnce codeId) w) 1 1) with
  | (Rejected e, s1) => (failed e, world s1)
  | (Resolved u, s1) =>
      match fault env (awaits s1) with
      | Some e => (failed e, log_call (CodesRemove codeId) (world s1))
      | None =>
          let w2 := set_codes (delete codeId (codesRef (world s1)))
                              (log_call (CodesRemove codeId) (world s1)) in
          match fault env (S (awaits s1)) with
          | Some e => (failed e, log_call (CreateCustomToken (uid u)) w2)
          | None =>
              (mkResponse 200
                 (SuccessResponse None (Some (uid u)) (Some (sign env (uid u)))
                                  (Some firstName) (Some lastName)),
               log_call (CreateCustomToken (uid u)) w2)
          end
      end
  end.
Proof.
  intros Hwf H0 Hsome Hle Heq codeId firstName lastName failed.
  subst codeId firstName lastName failed. validated Hwf.
  run. rewrite H0. run. rewrite Hsome. run.
  rewrite (proj2 (Z.ltb_ge _ _) Hle).
  rewrite (proj2 (String.eqb_eq _ _) Heq). cbn [negb]. run.
  destruct (resolve_identity _ _ _ _ _) as [[u|e] s1]; run; [|done].
  destruct (fault env (awaits s1)); run; [done|].
  destruct (fault env (S (awaits s1))); run; done.
Qed.

(* a request that is answered 200 passed every step of the validation *)
Lemma verifyCode_200_inv env req w resp w' :
  verifyCode env req w = (resp, w') -> status resp = 200 ->
  well_formed_verify req = true /\ fault env 0 = None
  /\ exists v, codesRef w !! str (body_codeId req) = Some v
               /\ clock env 0 <= expiresAt v
               /\ code v = str (body_code req).
Proof.
  intros Hrun H200.
  pose proof (verifyCode_200_well_formed _ _ _ _ _ Hrun H200) as Hwf.
  split; [done|].
  destruct (fault env 0) as [e|] eqn:H0.
  { exfalso. revert Hrun. validated Hwf. run. rewrite H0. run.
    intros [= <- <-]. done. }
  split; [done|].
  destruct (codesRef w !! str (body_codeId req)) as [v|] eqn:Hlook.
  2:{ rewrite (verifyCode_not_found _ _ _ Hwf H0 Hlook) in Hrun.
      by simplify_eq. }
  exists v. split; [done|].
  destruct (decide (expiresAt v < clock env 0)) as [Hlt|Hge].
  { rewrite (verifyCode_expired_run _ _ _ _ Hwf H0 Hlook Hlt) in Hrun.
    destruct (fault env 1); by simplify_eq. }
  split; [lia|].
  destruct (decide (code v = str (body_code req))) as [|Hne]; [done|].
  rewrite (verifyCode_incorrect_run _ _ _ _ Hwf H0 Hlook) in Hrun;
    [by simplify_eq|lia|done].
Qed.

(* a request that is answered 200 has deleted its record *)
Lemma verifyCode_200_consumed env req w resp w' :
  verifyCode env req w = (resp, w') -> status resp = 200 ->
  codesRef w' !! str (body_codeId req) = None.
Proof.
  intros Hrun H200.
  destruct (verifyCode_200_inv _ _ _ _ _ Hrun H200)
    as (Hwf & H0 & v & Hlook & Hle & Hcode).
  rewrite (verifyCode_accept_run _ _ _ _ Hwf H0 Hlook Hle Hcode) in Hrun.
  cbv zeta in Hrun.
  destruct (resolve_identity _ _ _ _ _) as [[u|e] s1]; [|by simplify_eq].
  destruct (fault env (awaits s1)); [by simplify_eq|].
  destruct (fault env (S (awaits s1))); simplify_eq.
  cbn. apply lookup_delete_eq.
Qed.

(** C1.  After a verifyCode call answered 200 the record it used is gone
    from the store, and a following well-formed call with the same codeId
    whose lookup is answered gets the 400 "Verification code not found",
    whatever code it submits, the same correct one included. *)
Theorem verifyCode_single_use env1 env2 req1 req2 w resp1 w1 :
  verifyCode env1 req1 w = (resp1, w1) -> status resp1 = 200 ->
  well_formed_verify req2 = true ->
  body_codeId req2 = body_codeId req1 ->
  body_code req2 = body_code req1 ->
  fault env2 0 = None ->
  codesRef w1 !! str (body_codeId req1) = None
  /\ verifyCode env2 req2 w1 =
     (error_response 400 "Verification code not found",
      log_call (CodesOnce (str (body_codeId req1))) w1).
Proof.
  intros Hrun H200 Hwf Hid _ H0.
  pose proof (verifyCode_200_consumed _ _ _ _ _ Hrun H200) as Hgone.
  split; [done|]. rewrite <- Hid in *.
  by apply verifyCode_not_found.
Qed.

Lemma verifyCode_single_use_witness :
  let req := Sample.verify "550000" "Ada" "L" in
  let first := verifyCode Sample.env_ok req Sample.one_record in
  status first.1 = 200
  /\ codesRef first.2 !! "0" = None
  /\ verifyCode Sample.env_ok req first.2 =
     (error_response 400 "Verification code not found",
      log_call (CodesOnce "0") first.2).
Proof.
  intros req first. split; [reflexivity|].
  apply (verifyCode_single_use Sample.env_ok Sample.env_ok req req
           Sample.one_record first.1 first.2);
    reflexivity.
Defined.

(** C4.  A well-formed verifyCode call that finds its record with
    expiresAt strictly below the clock reading, and whose two database
    calls are answered, deletes that record and answers the 400
    "Verification code has expired".  Nothing else is required: the
    submitted code is not looked at, and no Sweeper run is involved. *)
Theorem verifyCode_expired env req w v :
  well_formed_verify req = true ->
  fault env 0 = None -> fault env 1 = None ->
  codesRef w !! str (body_codeId req) = Some v ->
  expiresAt v < clock env 0 ->
  exists w',
    verifyCode env req w =
      (error_response 400 "Verification code has expired", w')
    /\ codesRef w' = delete (str (body_codeId req)) (codesRef w)
    /\ codesRef w' !! str (body_codeId req) = None
    /\ usersRef w' = usersRef w /\ auth w' = auth w.
Proof.
  intros Hwf H0 H1 Hlook Hlt. eexists. split.
  - rewrite (verifyCode_expired_run _ _ _ _ Hwf H0 Hlook Hlt), H1.
    reflexivity.
  - cbn. split_and!; try done. apply lookup_delete_eq.
Qed.

Lemma verifyCode_expired_witness :
  exists w',
    verifyCode (Sample.env_at 301001) (Sample.verify "000000" "Ada" "L")
               Sample.one_record =
      (error_response 400 "Verification code has expired", w')
    /\ codesRef w' = delete "0" (codesRef Sample.one_record)
    /\ codesRef w' !! "0" = None
    /\ usersRef w' = usersRef Sample.one_record
    /\ auth w' = auth Sample.one_record.
Proof.
  apply (verifyCode_expired (Sample.env_at 301001)
           (Sample.verify "000000" "Ada" "L") Sample.one_record Sample.record);
    reflexivity.
Defined.

(* when the environment rejects nothing, a live record and its own code
   are all that a well-formed request needs to be answered 200 *)
Lemma verifyCode_accepts env req w v :
  well_formed_verify req = true -> no_fault env ->
  codesRef w !! str (body_codeId req) = Some v ->
  clock env 0 <= expiresAt v ->
  code v = str (body_code req) ->
  exists userId w',
    verifyCode env req w =
      (mkResponse 200
         (SuccessResponse None (Some userId) (Some (sign env userId))
            (Some (str (body_firstName req))) (Some (str (body_lastName req)))),
       w')
    /\ codesRef w' !! str (body_codeId req) = None.
Proof.
  intros Hwf Hnf Hlook Hle Hcode.
  rewrite (verifyCode_accept_run _ _ _ _ Hwf (Hnf 0%nat) Hlook Hle Hcode).
  cbv zeta.
  match goal with
  | |- context [resolve_identity ?p ?f ?l ?e ?s] =>
      destruct (resolve_identity_no_fault p f l e s Hnf) as (u & s1 & ->)
  end.
  rewrite !Hnf. eexists _, _. split; [reflexivity|].
  cbn. apply lookup_delete_eq.
Qed.

(** C5.  A well-formed verifyCode call whose lookup is answered, that finds
    its record not expired (expiresAt not below the clock reading) and
    submits a code other than the stored one, answers the 400 "Incorrect
    verification code" and leaves the store of records, the users and the
    accounts exactly as they were.  The record thus stays verifiable: any
    later well-formed call in the resulting world with the stored code,
    made while expiresAt is not below the clock and with no call
    rejected, is answered 200. *)
Theorem verifyCode_incorrect_code env req w v :
  well_formed_verify req = true -> fault env 0 = None ->
  codesRef w !! str (body_codeId req) = Some v ->
  clock env 0 <= expiresAt v ->
  str (body_code req) <> code v ->
  exists w',
    verifyCode env req w =
      (error_response 400 "Incorrect verification code", w')
    /\ codesRef w' = codesRef w /\ usersRef w' = usersRef w
    /\ auth w' = auth w
    /\ codesRef w' !! str (body_codeId req) = Some v
    /\ forall env2 req2,
         well_formed_verify req2 = true -> no_fault env2 ->
         body_codeId req2 = body_codeId req ->
         str (body_code req2) = code v ->
         clock env2 0 <= expiresAt v ->
         status (verifyCode env2 req2 w').1 = 200.
Proof.
  intros Hwf H0 Hlook Hle Hne. eexists. split.
  - apply (verifyCode_incorrect_run _ _ _ v); auto.
  - cbn [log_call codesRef usersRef auth]. split_and!; try done.
    intros env2 req2 Hwf2 Hnf2 Hid2 Hcode2 Hle2.
    destruct (verifyCode_accepts env2 req2
                (log_call (CodesOnce (str (body_codeId req))) w) v)
      as (userId & w2 & -> & _); auto.
    by rewrite Hid2.
Qed.

Lemma verifyCode_incorrect_code_witness :
  exists w',
    verifyCode Sample.env_ok (Sample.verify "000000" "Ada" "L")
               Sample.one_record =
      (error_response 400 "Incorrect verification code", w')
    /\ codesRef w' = codesRef Sample.one_record
    /\ status (verifyCode Sample.env_ok (Sample.verify "550000" "Ada" "L")
                          w').1 = 200.
Proof.
  destruct (verifyCode_incorrect_code Sample.env_ok
              (Sample.verify "000000" "Ada" "L") Sample.one_record
              Sample.record)
    as (w' & Hrun & Hcodes & _ & _ & _ & Hretry);
    [reflexivity | reflexivity | reflexivity | discriminate | discriminate |].
  exists w'. split; [exact Hrun|]. split; [exact Hcodes|].
  apply Hretry; [reflexivity | intros n; reflexivity | reflexivity
                | reflexivity | discriminate].
Defined.

(** C10.  A record whose expiresAt equals the clock reading is on both
    sides of the boundary.  With no call rejected, a well-formed verifyCode
    call that reads that time and submits the stored code is not rejected
    as expired but answered 200; and a Sweeper run that reads the same
    time ends normally with that record deleted. *)
Theorem expiry_boundary env req w v :
  well_formed_verify req = true -> no_fault env ->
  codesRef w !! str (body_codeId req) = Some v ->
  expiresAt v = clock env 0 ->
  str (body_code req) = code v ->
  status (verifyCode env req w).1 = 200
  /\ exists w',
       cleanupExpiredCodes env w = (Resolved tt, w')
       /\ codesRef w' !! str (body_codeId req) = None.
Proof.
  intros Hwf Hnf Hlook Hexp Hcode. split.
  - destruct (verifyCode_accepts env req w v) as (userId & w' & -> & _);
      auto. lia.
  - destruct (cleanupExpiredCodes_sweeps env w (Hnf 0%nat) (Hnf 1%nat))
      as (w' & Hrun & Hcodes & _).
    exists w'. split; [done|]. rewrite Hcodes.
    apply map_lookup_filter_None. right.
    intros v' ?. cbn. simplify_eq. lia.
Qed.

Lemma expiry_boundary_witness :
  status (verifyCode (Sample.env_at 301000) (Sample.verify "550000" "Ada" "L")
                     Sample.one_record).1 = 200
  /\ exists w',
       cleanupExpiredCodes (Sample.env_at 301000) Sample.one_record
       = (Resolved tt, w')
       /\ codesRef w' !! "0" = None.
Proof.
  apply (expiry_boundary (Sample.env_at 301000)
           (Sample.verify "550000" "Ada" "L") Sample.one_record Sample.record);
    [reflexivity | intros n; reflexivity | reflexivity | reflexivity
    | reflexivity].
Defined.

(* the outer catch of an HTTP function answers every rejection *)
Lemma verifyCode_handler_resolves req env s :
  exists r s', verifyCode_handler req env s = (Resolved r, s').
Proof.
  unfold verifyCode_handler, try_catch.
  destruct (verifyCode_try req env s) as [[r|e] s']; run; eauto.
Qed.

Lemma requestVerification_handler_resolves req env s :
  exists r s', requestVerification_handler req env s = (Resolved r, s').
Proof.
  unfold requestVerification_handler, try_catch.
  destruct (requestVerification_try req env s) as [[r|e] s']; run; eauto.
Qed.

(* no call of verifyCode, whatever its outcome, makes two accounts share a
   phone number *)
Lemma verifyCode_handler_unique req :
  preserves directory_unique (verifyCode_handler req).
Proof.
  unfold verifyCode_handler, verifyCode_try, codes_once, codes_remove,
    createCustomToken.
  preserve_with ltac:(apply resolve_identity_unique).
Qed.

Lemma verifyCode_unique env req w :
  phone_unique (auth w) -> phone_unique (auth (verifyCode env req w).2).
Proof.
  intros Hu. unfold verifyCode, corsHandler.
  destruct (preflight req); [done|]. unfold respond, invoke.
  destruct (verifyCode_handler req env (mkSt w 0 0)) as [o s'] eqn:Hrun.
  apply verifyCode_handler_unique in Hrun; [|done].
  by destruct o.
Qed.

Lemma name_fields_lookup firstName lastName dn :
  name_fields firstName lastName dn !! "firstName" = Some (VString firstName)
  /\ name_fields firstName lastName dn !! "lastName" = Some (VString lastName)
  /\ name_fields firstName lastName dn !! "displayName" = Some (VString dn)
  /\ name_fields firstName lastName dn !! "role" = None
  /\ name_fields firstName lastName dn !! "uid" = None.
Proof. unfold name_fields. split_and!; by simplify_map_eq. Qed.

Lemma userData_role firstName lastName phone uid t :
  userData firstName lastName phone uid t !! "role" = Some (VString "user").
Proof. unfold userData. by simplify_map_eq. Qed.

(** C7.  Accounts are told apart by phone number, and verifyCode keeps it
    so.  Take a directory without duplicate phone numbers and a record
    stored under the submitted codeId.  A well-formed call that presents
    the stored code before the expiry and meets no rejected call is
    answered 200, whether or not the phone number has an account.  And
    every call answered 200 has done exactly this.  If an account already
    held the phone number of the record, that account is the one the
    response names; its display name becomes the submitted "first last",
    its uid and phone number stay, no account is added, and its users
    child gets the submitted firstName, lastName and displayName while
    its role and uid fields stay what they were.  If no account held the
    phone number, exactly one account is added, under a uid that was
    free, and its users child is written with role "user".  In both cases
    the directory still has no duplicate phone number. *)
Theorem verifyCode_identity env req w v :
  phone_unique (auth w) ->
  codesRef w !! str (body_codeId req) = Some v ->
  let firstName := str (body_firstName req) in
  let lastName := str (body_lastName req) in
  let displayName := firstName ++ " " ++ lastName in
  let phone := phoneNumber v in
  let answer userId :=
    SuccessResponse None (Some userId) (Some (sign env userId))
                    (Some firstName) (Some lastName) in
  (well_formed_verify req = true -> no_fault env ->
   clock env 0 <= expiresAt v -> code v = str (body_code req) ->
   status (verifyCode env req w).1 = 200)
  /\ forall resp w',
      verifyCode env req w = (resp, w') -> status resp = 200 ->
      phone_unique (auth w')
      /\ match find_by_phone phone (auth w) with
         | Some u0 =>
             json resp = answer (uid u0)
             /\ auth w' =
                <[uid u0 := mkAccount (Some phone) (Some displayName)]>
                  (auth w)
             /\ dom (auth w') = dom (auth w)
             /\ exists node,
                  usersRef w' = <[uid u0 := node]> (usersRef w)
                  /\ node !! "firstName" = Some (VString firstName)
                  /\ node !! "lastName" = Some (VString lastName)
                  /\ node !! "displayName" = Some (VString displayName)
                  /\ node !! "role" = usersRef w !! uid u0 ≫= (.!! "role")
                  /\ node !! "uid" = usersRef w !! uid u0 ≫= (.!! "uid")
         | None =>
             exists newUid,
               auth w !! newUid = None
               /\ json resp = answer newUid
               /\ auth w' =
                  <[newUid := mkAccount (Some phone) (Some displayName)]>
                    (auth w)
               /\ size (auth w') = S (size (auth w))
               /\ usersRef w' =
                  <[newUid := userData firstName lastName phone newUid
                                       (clock env 1)]> (usersRef w)
               /\ userData firstName lastName phone newUid (clock env 1)
                  !! "role" = Some (VString "user")
         end.
Proof.
  intros Hu Hlook firstName lastName displayName phone answer.
  split.
  { intros Hwf Hnf Hle Hcode.
    destruct (verifyCode_accepts env req w v Hwf Hnf Hlook Hle Hcode)
      as (userId & w' & -> & _).
    reflexivity. }
  intros resp w' Hrun H200.
  split.
  { change w' with (resp, w').2. rewrite <- Hrun. by apply verifyCode_unique. }
  destruct (verifyCode_200_inv _ _ _ _ _ Hrun H200)
    as (Hwf & H0 & v' & Hlook' & Hle & Hcode).
  assert (v' = v) as -> by congruence.
  rewrite (verifyCode_accept_run _ _ _ _ Hwf H0 Hlook Hle Hcode) in Hrun.
  cbv zeta in Hrun. fold firstName lastName phone in Hrun.
  destruct (resolve_identity phone firstName lastName env _)
    as [[u|e] s1] eqn:Hres; [|by simplify_eq].
  apply resolve_identity_resolved in Hres. cbv zeta in Hres.
  cbn [world auth usersRef log_call reads] in Hres.
  fold displayName in Hres.
  destruct (fault env (awaits s1)); [by simplify_eq|].
  destruct (fault env (S (awaits s1))); simplify_eq.
  cbn [json log_call set_codes auth usersRef].
  destruct (find_by_phone phone (auth w)) as [u0|] eqn:Hfind.
  - destruct Hres as (-> & Ha & Hn).
    apply find_by_phone_Some in Hfind as [Hu0 Hp]. rewrite Hp in Ha.
    split; [done|]. split; [done|]. split.
    { rewrite Ha. apply dom_insert_lookup_L. eauto. }
    eexists. split; [exact Hn|].
    destruct (name_fields_lookup firstName lastName displayName)
      as (Hf & Hl & Hd & Hr & Hi).
    split_and!.
    + by apply lookup_union_Some_l.
    + by apply lookup_union_Some_l.
    + by apply lookup_union_Some_l.
    + rewrite lookup_union_r by done.
      by destruct (usersRef w !! uid u0).
    + rewrite lookup_union_r by done.
      by destruct (usersRef w !! uid u0).
  - destruct Hres as (-> & Ha & Hn). cbn [uid account] in *.
    exists (fresh (dom (auth w))). split; [apply fresh_uid_free|].
    split; [done|]. split; [done|]. split.
    { rewrite Ha. apply map_size_insert_None, fresh_uid_free. }
    split; [done|]. apply userData_role.
Qed.

Lemma verifyCode_identity_witness :
  let req := Sample.verify "550000" "Ada" "Lovelace" in
  let created := verifyCode Sample.env_ok req Sample.one_record in
  let updated := verifyCode Sample.env_ok req Sample.returning_user in
  (status created.1 = 200
   /\ exists newUid,
        auth Sample.one_record !! newUid = None
        /\ json created.1 =
           SuccessResponse None (Some newUid) (Some (Sample.signer newUid))
                           (Some "Ada") (Some "Lovelace")
        /\ auth created.2 =
           <[newUid := mkAccount (Some "+712345678") (Some "Ada Lovelace")]>
             (auth Sample.one_record)
        /\ size (auth created.2) = 1%nat
        /\ usersRef created.2 =
           <[newUid := userData "Ada" "Lovelace" "+712345678" newUid 1001]>
             (usersRef Sample.one_record)
        /\ userData "Ada" "Lovelace" "+712345678" newUid 1001 !! "role"
           = Some (VString "user"))
  /\ (status updated.1 = 200
      /\ phone_unique (auth updated.2)
      /\ json updated.1 =
         SuccessResponse None (Some "u1") (Some "jwt:u1") (Some "Ada")
                         (Some "Lovelace")
      /\ auth updated.2 =
         <[ "u1" := mkAccount (Some "+712345678") (Some "Ada Lovelace") ]>
           (auth Sample.returning_user)
      /\ dom (auth updated.2) = dom (auth Sample.returning_user)).
Proof.
  intros req created updated.
  assert (no_fault Sample.env_ok) as Hnf by (intros n; reflexivity).
  split.
  - assert (phone_unique (auth Sample.one_record)) as Hu.
    { unfold Sample.one_record. cbn [auth]. intros k1 k2 a1 a2 p Hk1.
      by rewrite lookup_empty in Hk1. }
    destruct (verifyCode_identity Sample.env_ok req Sample.one_record
                Sample.record Hu eq_refl) as [Hgoes Hdone].
    assert (status created.1 = 200) as H200.
    { apply Hgoes; [reflexivity | exact Hnf | discriminate | reflexivity]. }
    split; [exact H200|].
    destruct (Hdone created.1 created.2
                ltac:(vm_compute; reflexivity) H200) as [_ Hcreate].
    change (find_by_phone (phoneNumber Sample.record)
              (auth Sample.one_record))
      with (@None UserRecord) in Hcreate.
    exact Hcreate.
  - assert (phone_unique (auth Sample.returning_user)) as Hu.
    { unfold Sample.returning_user. cbn [auth].
      intros k1 k2 a1 a2 p H1 H2 _ _.
      apply lookup_singleton_Some in H1 as [<- _].
      apply lookup_singleton_Some in H2 as [<- _]. reflexivity. }
    destruct (verifyCode_identity Sample.env_ok req Sample.returning_user
                Sample.record Hu eq_refl) as [Hgoes Hdone].
    assert (status updated.1 = 200) as H200.
    { apply Hgoes; [reflexivity | exact Hnf | discriminate | reflexivity]. }
    split; [exact H200|].
    destruct (Hdone updated.1 updated.2
                ltac:(vm_compute; reflexivity) H200) as [Hu' Hfound].
    split; [exact Hu'|].
    change (find_by_phone (phoneNumber Sample.record)
              (auth Sample.returning_user))
      with (Some (mkUserRecord "u1" Sample.ada)) in Hfound.
    destruct Hfound as (Hjson & Hauth & Hdom & _).
    split; [exact Hjson|]. split; [exact Hauth|exact Hdom].
Defined.

(* ===================================================================== *)
(* 14. Further properties of formatPhoneNumber                           *)
(* ===================================================================== *)

(** X1.  Normalising keeps the digits of the input, in their order; the
    only digit it ever drops is one leading '0', and it drops that one
    exactly when the digits begin with '0'. *)
Theorem formatPhoneNumber_digits (x : string) :
  replace_non_digits (formatPhoneNumber x) =
  if startsWith (replace_non_digits x) "0"
  then substring1 (replace_non_digits x)
  else replace_non_digits x.
Proof.
  pose proof (replace_non_digits_all_digits x) as Hd.
  unfold formatPhoneNumber.
  destruct (startsWith (replace_non_digits x) "1") eqn:H1.
  { rewrite (startsWith_1_not_0 _ H1). apply digits_of_plus_digits. }
  destruct (startsWith (replace_non_digits x) "0") eqn:H0.
  { rewrite replace_non_digits_plus. apply replace_non_digits_id.
    apply startsWith_0_inv in H0. rewrite H0 in Hd.
    by apply all_digits_tail in Hd. }
  destruct (startsWith x "+"); cbn [negb]; [done|].
  apply digits_of_plus_digits.
Qed.

(** X2.  For inputs written without a leading '+', the result depends on
    the digits alone: two such inputs with the same digits, however they
    are spaced or punctuated, normalise to the same string. *)
Theorem formatPhoneNumber_separators (x y : string) :
  startsWith x "+" = false -> startsWith y "+" = false ->
  replace_non_digits x = replace_non_digits y ->
  formatPhoneNumber x = formatPhoneNumber y.
Proof.
  intros Hx Hy Hd. unfold formatPhoneNumber. by rewrite Hx, Hy, Hd.
Qed.

Lemma formatPhoneNumber_separators_witness :
  formatPhoneNumber "(44) 20-7946" = formatPhoneNumber "44 20 7946".
Proof.
  apply formatPhoneNumber_separators; reflexivity.
Defined.

(** X3.  A string that already is a '+' followed by digits only, the first
    of which is not '0', is a fixed point of the normalisation. *)
Theorem formatPhoneNumber_canonical_fixed (x : string) :
  canonical x = true ->
  startsWith (replace_non_digits x) "0" = false ->
  formatPhoneNumber x = x.
Proof.
  intros Hc H0. destruct x as [|c d]; [done|].
  destruct (ascii_dec c "+") as [->|Hne].
  2:{ exfalso. revert Hc Hne.
      destruct c as [[] [] [] [] [] [] [] []]; done. }
  change (all_digits d = true) in Hc.
  assert (replace_non_digits (String "+" d) = d) as Hd.
  { change (String "+" d) with ("+" ++ d).
    rewrite replace_non_digits_plus. by apply replace_non_digits_id. }
  unfold formatPhoneNumber. rewrite Hd in *. rewrite H0.
  destruct (startsWith d "1"); [reflexivity|].
  change (String "+" d) with ("+" ++ d). by rewrite startsWith_plus.
Qed.

Lemma formatPhoneNumber_canonical_fixed_witness :
  formatPhoneNumber "+15550109999" = "+15550109999".
Proof.
  apply formatPhoneNumber_canonical_fixed; reflexivity.
Defined.

(* ===================================================================== *)
(* 15. The generated code                                                *)
(* ===================================================================== *)

(* ---- rounding to a double ---- *)

Lemma pow2_pos e : (0 < pow2 e)%Q.
Proof. apply Qpower_0_lt. reflexivity. Qed.

Lemma pow2_le a b : a <= b -> (pow2 a <= pow2 b)%Q.
Proof. intros H. apply Qpower_le_compat_l; [done|]. discriminate. Qed.

Lemma pow2_lt a b : a < b -> (pow2 a < pow2 b)%Q.
Proof. intros H. apply Qpower_lt_compat_l; [done|]. reflexivity. Qed.

Lemma pow2_lt_inv a b : (pow2 a < pow2 b)%Q -> a < b.
Proof. intros H. eapply Qpower_lt_compat_l_inv; [exact H|reflexivity]. Qed.

Lemma pow2_plus a b : (pow2 (a + b) == pow2 a * pow2 b)%Q.
Proof. apply Qpower_plus. discriminate. Qed.

Lemma pow2_inject n : 0 <= n -> (pow2 n == inject_Z (2 ^ n))%Q.
Proof. intros H. unfold pow2. by rewrite Zpower_Qpower. Qed.

(* rne *)
Lemma rne_bounds t : Qfloor t <= rne t <= Qfloor t + 1.
Proof.
  unfold rne. destruct (Qcompare _ _); [destruct (Z.even _)|..]; lia.
Qed.

Lemma rne_Z n : rne (inject_Z n) = n.
Proof.
  unfold rne. rewrite Qfloor_Z.
  assert ((inject_Z n - inject_Z n ?= 1 # 2)%Q = Lt) as ->; [|done].
  rewrite <- Qlt_alt. lra.
Qed.

Lemma rne_mono t1 t2 : (t1 <= t2)%Q -> rne t1 <= rne t2.
Proof.
  intros H. pose proof (Qfloor_resp_le _ _ H) as Hf.
  pose proof (rne_bounds t1) as B1. pose proof (rne_bounds t2) as B2.
  destruct (decide (Qfloor t1 = Qfloor t2)) as [Heq|Hne]; [|lia].
  clear B1 B2 Hf. unfold rne. rewrite <- Heq.
  destruct (Qcompare (t1 - inject_Z (Qfloor t1)) (1 # 2)) eqn:C1;
    destruct (Qcompare (t2 - inject_Z (Qfloor t1)) (1 # 2)) eqn:C2;
    try (destruct (Z.even (Qfloor t1))); try lia; exfalso;
    first [apply Qeq_alt in C1 | apply Qlt_alt in C1 | apply Qgt_alt in C1];
    first [apply Qeq_alt in C2 | apply Qlt_alt in C2 | apply Qgt_alt in C2];
    lra.
Qed.

Lemma pow2_sub_inject e K :
  0 <= K -> 0 <= e -> (pow2 (e - K) * inject_Z (2 ^ K) == inject_Z (2 ^ e))%Q.
Proof.
  intros HK He. rewrite <- !pow2_inject by lia. rewrite <- pow2_plus.
  by replace (e - K + K) with e by lia.
Qed.

Lemma exponent_spec q :
  (0 < q)%Q -> (pow2 (exponent q) <= q)%Q /\ (q < pow2 (exponent q + 1))%Q.
Proof.
  destruct q as [n d]. intros Hq.
  assert (0 < n) as Hn by (unfold Qlt in Hq; simpl in Hq; lia).
  unfold exponent. cbn [Qnum Qden].
  set (K := Z.log2_up (Z.pos d)).
  assert (0 <= K) as HK by apply Z.log2_up_nonneg.
  assert (Z.pos d <= 2 ^ K) as HdK
    by (apply (Z.log2_log2_up_spec (Z.pos d)); lia).
  set (f := n * 2 ^ K / Z.pos d).
  assert (f * Z.pos d <= n * 2 ^ K < (f + 1) * Z.pos d) as Hf.
  { unfold f. pose proof (Z.mul_div_le (n * 2 ^ K) (Z.pos d)).
    pose proof (Z.mul_succ_div_gt (n * 2 ^ K) (Z.pos d)). lia. }
  assert (1 <= f) as Hf1.
  { unfold f. apply Z.div_le_lower_bound; [lia|]. nia. }
  set (e := Z.log2 f).
  assert (0 <= e) as He by apply Z.log2_nonneg.
  assert (2 ^ e <= f < 2 ^ (e + 1)) as Hlog.
  { replace (e + 1) with (Z.succ e) by lia. apply Z.log2_spec. lia. }
  assert (0 < 2 ^ K) as HpK by (apply Z.pow_pos_nonneg; lia).
  assert (0 < inject_Z (2 ^ K))%Q as HqK
    by (change 0%Q with (inject_Z 0); by rewrite <- Zlt_Qlt).
  split.
  - apply (Qmult_le_r _ _ (inject_Z (2 ^ K))); [done|].
    rewrite pow2_sub_inject by lia.
    unfold Qle, Qmult, inject_Z. cbn [Qnum Qden]. nia.
  - apply (Qmult_lt_r _ _ (inject_Z (2 ^ K))); [done|].
    replace (e - K + 1) with (e + 1 - K) by lia.
    rewrite pow2_sub_inject by lia.
    unfold Qlt, Qmult, inject_Z. cbn [Qnum Qden]. nia.
Qed.

Lemma exponent_mono q1 q2 :
  (0 < q1)%Q -> (q1 <= q2)%Q -> exponent q1 <= exponent q2.
Proof.
  intros H1 H12.
  destruct (exponent_spec q1 H1) as [L1 _].
  destruct (exponent_spec q2) as [_ U2]; [lra|].
  assert (pow2 (exponent q1) < pow2 (exponent q2 + 1))%Q as H by lra.
  apply pow2_lt_inv in H. lia.
Qed.

Lemma round53_pos q :
  (0 < q)%Q ->
  round53 q = (inject_Z (rne (q / pow2 (binade q - 52))) * pow2 (binade q - 52))%Q.
Proof.
  intros H. unfold round53.
  by assert (Qcompare q 0 = Gt) as -> by (by apply Qgt_alt).
Qed.

Lemma round53_zero q : (q == 0)%Q -> round53 q = 0%Q.
Proof.
  intros H. unfold round53.
  by assert (Qcompare q 0 = Eq) as -> by (by apply Qeq_alt).
Qed.

Lemma round53_neg q : (q < 0)%Q -> round53 q = (- round53 (- q))%Q.
Proof.
  intros H. rewrite (round53_pos (- q)) by lra. unfold round53.
  by assert (Qcompare q 0 = Lt) as -> by (by apply Qlt_alt).
Qed.

Lemma binade_mono q1 q2 :
  (0 < q1)%Q -> (q1 <= q2)%Q -> binade q1 <= binade q2.
Proof.
  intros H1 H12. pose proof (exponent_mono q1 q2 H1 H12). unfold binade. lia.
Qed.

Lemma binade_upper q : (0 < q)%Q -> (q < pow2 (binade q + 1))%Q.
Proof.
  intros H. destruct (exponent_spec q H) as [_ U].
  eapply Qlt_le_trans; [exact U|]. apply pow2_le. unfold binade. lia.
Qed.

Lemma pow2_ulp e k :
  0 <= k -> (pow2 (e + k - 52) == inject_Z (2 ^ k) * pow2 (e - 52))%Q.
Proof.
  intros Hk. rewrite <- pow2_inject by done. rewrite <- pow2_plus.
  by replace (e + k - 52) with (k + (e - 52)) by lia.
Qed.

Lemma round53_upper q : (0 < q)%Q -> (round53 q <= pow2 (binade q + 1))%Q.
Proof.
  intros H. rewrite round53_pos by done.
  pose proof (binade_upper q H) as U.
  set (e := binade q) in *. pose proof (pow2_pos (e - 52)) as Hu.
  replace (e + 1) with (e + 53 - 52) in * by lia.
  rewrite pow2_ulp in * by lia.
  apply Qmult_le_compat_r; [|lra].
  rewrite <- Zle_Qle. rewrite <- (rne_Z (2 ^ 53)). apply rne_mono.
  apply Qle_shift_div_r; [done|]. lra.
Qed.

Lemma round53_lower q :
  (0 < q)%Q -> (pow2 (binade q) <= q)%Q -> (pow2 (binade q) <= round53 q)%Q.
Proof.
  intros H L. rewrite round53_pos by done.
  set (e := binade q) in *. pose proof (pow2_pos (e - 52)) as Hu.
  replace e with (e + 52 - 52) in L at 1 by lia.
  replace e with (e + 52 - 52) at 1 by lia.
  rewrite pow2_ulp in * by lia.
  apply Qmult_le_compat_r; [|lra].
  rewrite <- Zle_Qle. rewrite <- (rne_Z (2 ^ 52)). apply rne_mono.
  apply Qle_shift_div_l; [done|]. lra.
Qed.

Lemma round53_nonneg q : (0 <= q)%Q -> (0 <= round53 q)%Q.
Proof.
  intros H0.
  destruct (Qlt_le_dec 0 q) as [H|H];
    [|rewrite round53_zero by lra; lra].
  rewrite round53_pos by done.
  pose proof (pow2_pos (binade q - 52)) as Hu.
  apply Qmult_le_0_compat; [|lra].
  change 0%Q with (inject_Z 0). rewrite <- Zle_Qle.
  rewrite <- (rne_Z 0). apply rne_mono.
  apply Qle_shift_div_l; [done|]. change (inject_Z 0) with 0%Q. lra.
Qed.

Lemma round53_mono_pos q1 q2 :
  (0 < q1)%Q -> (q1 <= q2)%Q -> (round53 q1 <= round53 q2)%Q.
Proof.
  intros H1 H12.
  assert (0 < q2)%Q as H2 by lra.
  pose proof (binade_mono q1 q2 H1 H12) as Hb.
  destruct (decide (binade q1 = binade q2)) as [Heq|Hne].
  - rewrite !round53_pos by done. rewrite Heq.
    pose proof (pow2_pos (binade q2 - 52)) as Hu.
    apply Qmult_le_compat_r; [|lra].
    rewrite <- Zle_Qle. apply rne_mono.
    apply Qmult_le_compat_r; [done|]. apply Qinv_le_0_compat. lra.
  - assert (binade q2 = exponent q2) as He by (unfold binade in *; lia).
    destruct (exponent_spec q2 H2) as [L2 _]. rewrite <- He in L2.
    pose proof (round53_lower q2 H2 L2).
    pose proof (round53_upper q1 H1).
    assert (pow2 (binade q1 + 1) <= pow2 (binade q2))%Q
      by (apply pow2_le; lia).
    lra.
Qed.

Lemma round53_mono q1 q2 : (q1 <= q2)%Q -> (round53 q1 <= round53 q2)%Q.
Proof.
  intros H12.
  destruct (Qlt_le_dec 0 q1) as [H1|H1]; [by apply round53_mono_pos|].
  destruct (Qlt_le_dec q2 0) as [H2|H2].
  - rewrite (round53_neg q1), (round53_neg q2) by lra.
    apply Qopp_le_compat, round53_mono_pos; lra.
  - pose proof (round53_nonneg q2 H2).
    destruct (Qlt_le_dec q1 0) as [H1'|H1'].
    + rewrite (round53_neg q1) by done.
      pose proof (round53_nonneg (- q1)). lra.
    + rewrite (round53_zero q1) by lra. done.
Qed.

Lemma exponent_unique q e :
  (pow2 e <= q)%Q -> (q < pow2 (e + 1))%Q -> exponent q = e.
Proof.
  intros L U. pose proof (pow2_pos e) as Hp.
  destruct (exponent_spec q) as [L' U']; [lra|].
  assert (pow2 e < pow2 (exponent q + 1))%Q as H1 by lra.
  assert (pow2 (exponent q) < pow2 (e + 1))%Q as H2 by lra.
  apply pow2_lt_inv in H1, H2. lia.
Qed.

Lemma double_below_one r :
  (r < 1)%Q -> double r -> (r <= 1 - pow2 (-53))%Q.
Proof.
  intros H1 Hd.
  assert (pow2 (-53) == 1 # 9007199254740992)%Q as Hu by reflexivity.
  destruct (Qlt_le_dec (1 # 2) r) as [Hh|Hh]; [|rewrite Hu; lra].
  assert (pow2 (-1) == 1 # 2)%Q as Hhalf by reflexivity.
  assert (pow2 (-1 + 1) == 1)%Q as Hone by reflexivity.
  assert (exponent r = -1) as He
    by (apply exponent_unique; [rewrite Hhalf|rewrite Hone]; lra).
  unfold double in Hd. rewrite round53_pos in Hd by lra.
  unfold binade in Hd. rewrite He in Hd.
  change (Z.max (-1) (-1022) - 52) with (-53) in Hd.
  set (m := rne (r / pow2 (-53))) in *.
  assert (m < 2 ^ 53) as Hm.
  { rewrite Zlt_Qlt. apply (Qmult_lt_r _ _ (pow2 (-53))); [apply pow2_pos|].
    rewrite Hd.
    assert (inject_Z (2 ^ 53) * pow2 (-53) == 1)%Q as -> by reflexivity.
    done. }
  assert (inject_Z m <= inject_Z (2 ^ 53 - 1))%Q as Hm'
    by (rewrite <- Zle_Qle; lia).
  rewrite <- Hd.
  assert (1 - pow2 (-53) == inject_Z (2 ^ 53 - 1) * pow2 (-53))%Q as ->
    by reflexivity.
  apply Qmult_le_compat_r; [done|]. pose proof (pow2_pos (-53)). lra.
Qed.

Lemma generate_code_range (r : Q) :
  (0 <= r)%Q -> (r < 1)%Q -> double r ->
  100000 <= Qfloor (round53 (100000 + round53 (r * 900000))) <= 999999.
Proof.
  intros H0 H1 Hd. pose proof (double_below_one r H1 Hd) as Hr.
  assert (pow2 (-53) == 1 # 9007199254740992)%Q as Hu by reflexivity.
  rewrite Hu in Hr. split.
  - apply (Z.le_trans _ (Qfloor (round53 100000))); [done|].
    apply Qfloor_resp_le, round53_mono.
    pose proof (round53_nonneg (r * 900000)). lra.
  - apply (Z.le_trans _
      (Qfloor (round53 (100000 + round53
                 ((9007199254740991 # 9007199254740992) * 900000)))));
      [|done].
    apply Qfloor_resp_le, round53_mono.
    apply Qplus_le_r, round53_mono. lra.
Qed.

Lemma pretty_N_char_digit (k : N) : is_digit (pretty_N_char k) = true.
Proof. unfold pretty_N_char. by repeat case_match. Qed.

Lemma pretty_N_char_nonzero (k : N) :
  (0 < k)%N -> pretty_N_char k <> "0"%char.
Proof. unfold pretty_N_char. intros Hk. repeat case_match; done || lia. Qed.

(* the decimal writing of a number with exactly six digits *)
Lemma pretty_six_digits (n : Z) :
  100000 <= n <= 999999 ->
  exists a b c d e f,
    pretty n = String a (String b (String c (String d (String e (String f "")))))
    /\ a <> "0"%char
    /\ Forall (fun ch => is_digit ch = true) [a; b; c; d; e; f].
Proof.
  intros Hn. destruct n as [|p|p]; [lia| |lia].
  unfold pretty, pretty_Z, pretty, pretty_positive, pretty, pretty_N.
  rewrite decide_False by done.
  set (x := N.pos p). assert (100000 <= x <= 999999)%N as Hx by lia.
  clearbody x.
  assert (forall k, (k < 6)%nat -> (0 < x `div` 10 ^ N.of_nat k)%N) as Hpos.
  { intros k Hk. apply N.div_str_pos.
    do 6 (destruct k as [|k]; [cbn; lia|]). lia. }
  rewrite pretty_N_go_step by (specialize (Hpos 0%nat); cbn in Hpos;
                               rewrite N.div_1_r in Hpos; apply Hpos; lia).
  rewrite pretty_N_go_step by (apply (Hpos 1%nat); lia).
  rewrite N.Div0.div_div.
  rewrite pretty_N_go_step by (apply (Hpos 2%nat); lia).
  rewrite N.Div0.div_div.
  rewrite pretty_N_go_step by (apply (Hpos 3%nat); lia).
  rewrite N.Div0.div_div.
  rewrite pretty_N_go_step by (apply (Hpos 4%nat); lia).
  rewrite N.Div0.div_div.
  rewrite pretty_N_go_step by (apply (Hpos 5%nat); lia).
  rewrite N.Div0.div_div.
  assert (x `div` (10 * 10 * 10 * 10 * 10 * 10) = 0)%N as ->
    by (apply N.div_small; lia).
  rewrite pretty_N_go_0. eexists _, _, _, _, _, _.
  split; [reflexivity|]. split.
  - apply pretty_N_char_nonzero.
    assert (0 < x `div` (10 * 10 * 10 * 10 * 10) < 10)%N as [??].
    { split; [apply (Hpos 5%nat); lia|].
      apply N.Div0.div_lt_upper_bound; lia. }
    rewrite N.mod_small; lia.
  - repeat constructor; apply pretty_N_char_digit.
Qed.

Lemma pretty_N_go_nonempty (x : N) (s : string) :
  s <> "" -> pretty_N_go x s <> "".
Proof.
  revert s. induction (N.lt_wf_0 x) as [x _ IH]; intros s Hs.
  destruct (decide (x = 0%N)) as [->|Hx]; [by rewrite pretty_N_go_0|].
  rewrite pretty_N_go_step by lia. apply IH; [apply N.div_lt; lia|done].
Qed.

Lemma pretty_Z_nonempty (z : Z) : pretty z <> "".
Proof.
  destruct z as [|p|p]; [done| |done].
  unfold pretty, pretty_Z, pretty, pretty_positive, pretty, pretty_N.
  rewrite decide_False by done. rewrite pretty_N_go_step by lia.
  by apply pretty_N_go_nonempty.
Qed.

(* whatever the draw, the code is not the empty string *)
Lemma generate_code_nonempty (r : Q) : generate_code r <> "".
Proof. apply pretty_Z_nonempty. Qed.

(* 0.3, the double nearest to three tenths: the product 0.3 * 900000 is
   rounded up to 270000, where the exact product lies below it *)
Example generate_code_three_tenths :
  let r := (5404319552844595 # 18014398509481984)%Q in
  double r
  /\ Qfloor (100000 + r * 900000) = 369999
  /\ generate_code r = "370000".
Proof. by vm_compute. Qed.

(* a rational below 1 that is no double can leave the range *)
Example generate_code_not_a_double :
  let r := (1 - (1 # 1152921504606846976))%Q in
  (0 <= r)%Q /\ (r < 1)%Q /\ ~ double r /\ generate_code r = "1000000".
Proof. by vm_compute. Qed.

(** X4.  For every draw of Math.random(), a double r with 0 <= r < 1,
    the generated code, computed in double arithmetic, is a string of
    exactly six decimal digits whose first digit is not '0': it writes a
    number between 100000 and 999999. *)
Theorem generate_code_six_digits (r : Q) :
  (0 <= r)%Q -> (r < 1)%Q -> double r ->
  String.length (generate_code r) = 6%nat
  /\ all_digits (generate_code r) = true
  /\ startsWith (generate_code r) "0" = false
  /\ generate_code r <> "".
Proof.
  intros H0 H1 Hd. unfold generate_code.
  destruct (pretty_six_digits _ (generate_code_range r H0 H1 Hd))
    as (a & b & c & d & e & f & -> & Ha & Hall).
  split; [reflexivity|]. split.
  - cbn [all_digits].
    repeat (apply Forall_cons in Hall as [-> Hall]). reflexivity.
  - split; [|done]. rewrite startsWith_step.
    destruct (ascii_dec "0" a); congruence.
Qed.

Lemma generate_code_six_digits_witness :
  let r := (5404319552844595 # 18014398509481984)%Q in
  ((0 <= r)%Q /\ (r < 1)%Q /\ double r)
  /\ String.length (generate_code r) = 6%nat
  /\ all_digits (generate_code r) = true
  /\ startsWith (generate_code r) "0" = false
  /\ generate_code r <> "".
Proof.
  intros r.
  assert (0 <= r)%Q as H0 by discriminate.
  assert (r < 1)%Q as H1 by reflexivity.
  assert (double r) as Hd by reflexivity.
  exact (conj (conj H0 (conj H1 Hd)) (generate_code_six_digits r H0 H1 Hd)).
Defined.

(* ===================================================================== *)
(* 16. Requests turned away, and what a response can be                  *)
(* ===================================================================== *)

Ltac listed :=
  unfold request_errors, verify_errors;
  repeat first [apply list_elem_of_here | apply list_elem_of_further].

Lemma details_of_cases env e :
  details_of env e = None
  \/ (NODE_ENV env = Some "development" /\ details_of env e = Some (message e)).
Proof.
  unfold details_of. destruct (NODE_ENV env) as [v|]; [|by left].
  destruct (String.eqb v "development") eqn:Hv; [|by left].
  apply String.eqb_eq in Hv as ->. by right.
Qed.

(* the run of requestVerification on a request that is not well formed *)
Lemma requestVerification_early env req w :
  well_formed_request req = false ->
  requestVerification env req w =
  (if preflight req then mkResponse 204 EmptyBody
   else if String.eqb (method req) "POST"
   then error_response 400 "Phone number is required"
   else error_response 405 "Method not allowed", w).
Proof.
  intros Hwf. unfold requestVerification.
  destruct (preflight req) eqn:Hpre.
  { by rewrite (corsHandler_preflight _ _ _ _ Hpre). }
  revert Hwf. unfold corsHandler. rewrite Hpre.
  unfold well_formed_request, respond, invoke,
    requestVerification_handler, requestVerification_try.
  destruct (String.eqb (method req) "POST"); cbn [negb andb]; [|by run].
  intros ->%negb_false_iff. by run.
Qed.

(* the run of verifyCode on a request that is not well formed *)
Lemma verifyCode_early env req w :
  well_formed_verify req = false ->
  verifyCode env req w =
  (if preflight req then mkResponse 204 EmptyBody
   else if negb (String.eqb (method req) "POST")
   then error_response 405 "Method not allowed"
   else if falsy (body_codeId req) || falsy (body_code req)
   then error_response 400 "Code ID and verification code are required"
   else error_response 400 "First name and last name are required", w).
Proof.
  intros Hwf. unfold verifyCode.
  destruct (preflight req) eqn:Hpre.
  { by rewrite (corsHandler_preflight _ _ _ _ Hpre). }
  revert Hwf. unfold corsHandler. rewrite Hpre.
  unfold well_formed_verify, respond, invoke,
    verifyCode_handler, verifyCode_try.
  destruct (String.eqb (method req) "POST"); cbn [negb andb]; [|by run].
  destruct (falsy (body_codeId req)); cbn [negb andb orb]; [by run|].
  destruct (falsy (body_code req)); cbn [negb andb orb]; [by run|].
  destruct (falsy (body_firstName req)); cbn [negb andb orb]; [by run|].
  destruct (falsy (body_lastName req)); cbn [negb andb orb]; [by run|].
  done.
Qed.

(* the run of verifyCode when the lookup of the record is rejected *)
Lemma verifyCode_lookup_rejected env req w e :
  well_formed_verify req = true -> fault env 0 = Some e ->
  verifyCode env req w =
  (mkResponse 500 (ErrorResponse "Failed to verify code or create user"
                                 (details_of env e)),
   log_call (CodesOnce (str (body_codeId req))) w).
Proof.
  intros Hwf H0. validated Hwf. run. rewrite H0. by run.
Qed.

(** X5.  requestVerification turns a request away before any call to the
    database or the gateway, leaving the world exactly as it was, in
    three cases tested in this order: a preflight request (method
    OPTIONS, in any letter case) is answered by the cors middleware with
    204 and no body; any other request that is not a POST is answered 405
    "Method not allowed"; a POST that carries no phone number (absent or
    empty) is answered 400 "Phone number is required". *)
Theorem requestVerification_turned_away env req w :
  well_formed_request req = false ->
  (requestVerification env req w).2 = w
  /\ (requestVerification env req w).1 =
     if preflight req then mkResponse 204 EmptyBody
     else if String.eqb (method req) "POST"
     then mkResponse 400 (ErrorResponse "Phone number is required" None)
     else mkResponse 405 (ErrorResponse "Method not allowed" None).
Proof.
  intros Hwf. by rewrite (requestVerification_early _ _ _ Hwf).
Qed.

Lemma requestVerification_turned_away_witness :
  let turned req := (requestVerification Sample.env_ok req Sample.one_record) in
  turned (mkRequest "OPTIONS" (Some "0712345678") None None None None)
    = (mkResponse 204 EmptyBody, Sample.one_record)
  /\ turned (mkRequest "GET" (Some "0712345678") None None None None)
    = (mkResponse 405 (ErrorResponse "Method not allowed" None),
       Sample.one_record)
  /\ turned (mkRequest "POST" (Some "") None None None None)
    = (mkResponse 400 (ErrorResponse "Phone number is required" None),
       Sample.one_record).
Proof.
  intros turned. split_and!.
  - destruct (requestVerification_turned_away Sample.env_ok
                (mkRequest "OPTIONS" (Some "0712345678") None None None None)
                Sample.one_record eq_refl) as [Hw Hr].
    unfold turned. rewrite (surjective_pairing (requestVerification _ _ _)).
    rewrite Hw, Hr. reflexivity.
  - destruct (requestVerification_turned_away Sample.env_ok
                (mkRequest "GET" (Some "0712345678") None None None None)
                Sample.one_record eq_refl) as [Hw Hr].
    unfold turned. rewrite (surjective_pairing (requestVerification _ _ _)).
    rewrite Hw, Hr. reflexivity.
  - destruct (requestVerification_turned_away Sample.env_ok
                (mkRequest "POST" (Some "") None None None None)
                Sample.one_record eq_refl) as [Hw Hr].
    unfold turned. rewrite (surjective_pairing (requestVerification _ _ _)).
    rewrite Hw, Hr. reflexivity.
Defined.

(** X6.  verifyCode turns a request away before any lookup or other call,
    leaving the world exactly as it was even when a record sits under the
    codeId, in four cases tested in this order: a preflight request
    (method OPTIONS, in any letter case) is answered by the cors
    middleware with 204 and no body; any other request that is not a POST
    is answered 405; a POST without codeId or code is answered 400 "Code
    ID and verification code are required", also when the names are
    missing too; a POST without firstName or lastName is answered 400
    "First name and last name are required". *)
Theorem verifyCode_turned_away env req w :
  well_formed_verify req = false ->
  (verifyCode env req w).2 = w
  /\ (verifyCode env req w).1 =
     if preflight req then mkResponse 204 EmptyBody
     else if negb (String.eqb (method req) "POST")
     then mkResponse 405 (ErrorResponse "Method not allowed" None)
     else if falsy (body_codeId req) || falsy (body_code req)
     then mkResponse 400
            (ErrorResponse "Code ID and verification code are required" None)
     else mkResponse 400
            (ErrorResponse "First name and last name are required" None).
Proof.
  intros Hwf. by rewrite (verifyCode_early _ _ _ Hwf).
Qed.

Lemma verifyCode_turned_away_witness :
  let turned req := verifyCode Sample.env_ok req Sample.one_record in
  turned (mkRequest "options" None (Some "0") (Some "550000")
                    (Some "Ada") (Some "L"))
    = (mkResponse 204 EmptyBody, Sample.one_record)
  /\ turned (mkRequest "PUT" None (Some "0") (Some "550000")
                       (Some "Ada") (Some "L"))
    = (mkResponse 405 (ErrorResponse "Method not allowed" None),
       Sample.one_record)
  /\ turned (mkRequest "POST" None (Some "0") None None (Some "L"))
    = (mkResponse 400
         (ErrorResponse "Code ID and verification code are required" None),
       Sample.one_record)
  /\ turned (mkRequest "POST" None (Some "0") (Some "550000") (Some "Ada")
                       (Some ""))
    = (mkResponse 400
         (ErrorResponse "First name and last name are required" None),
       Sample.one_record).
Proof.
  intros turned. unfold turned. split_and!;
    rewrite (surjective_pairing (verifyCode _ _ _));
    match goal with
    | |- context [verifyCode ?e ?r ?w] =>
        destruct (verifyCode_turned_away e r w eq_refl) as [-> ->]
    end; reflexivity.
Defined.

(** X7.  Whatever the request and whatever fails, requestVerification
    answers one of these: 204 without a body, to a preflight request and
    to nothing else; 200 with a codeId and no other field (the code
    itself is never in the response); or 405, 400, 500 with its fixed
    message.  The details field is filled only on a 500 and only when
    NODE_ENV is "development". *)
Theorem requestVerification_answers env req w :
  let resp := (requestVerification env req w).1 in
  match json resp with
  | SuccessResponse codeId userId customToken firstName lastName =>
      status resp = 200 /\ preflight req = false
      /\ codeId = Some (push_key w)
      /\ userId = None /\ customToken = None
      /\ firstName = None /\ lastName = None
  | ErrorResponse msg d =>
      (status resp, msg) ∈ request_errors /\ preflight req = false
      /\ (d = None
          \/ (status resp = 500 /\ NODE_ENV env = Some "development"))
  | EmptyBody => status resp = 204 /\ preflight req = true
  end.
Proof.
  destruct (well_formed_request req) eqn:Hwf.
  - assert (preflight req = false) as Hpre.
    { destruct (preflight req) eqn:Hpre; [|done].
      apply preflight_not_post in Hpre.
      apply well_formed_request_inv in Hwf as [Hm _]. congruence. }
    rewrite (requestVerification_run _ _ _ Hwf).
    destruct (fault env 0) as [e|]; cbn; [|done].
    split; [listed|]. split; [done|].
    destruct (details_of_cases env e) as [->|[? _]]; auto.
  - rewrite (requestVerification_early _ _ _ Hwf).
    destruct (preflight req); [done|].
    destruct (String.eqb (method req) "POST"); cbn;
      (split; [listed|split; [done|by left]]).
Qed.

(** X8.  Whatever the request and whatever fails, verifyCode answers one
    of these: 204 without a body, to a preflight request and to nothing
    else; 200 with the uid, the token signed for that uid and the two
    submitted names; or one of its seven fixed status and message pairs.
    The details field is filled only on a 500 and only when NODE_ENV is
    "development". *)
Theorem verifyCode_answers env req w :
  let resp := (verifyCode env req w).1 in
  match json resp with
  | SuccessResponse codeId userId customToken firstName lastName =>
      status resp = 200 /\ preflight req = false /\ codeId = None
      /\ (exists u, userId = Some u /\ customToken = Some (sign env u))
      /\ firstName = Some (str (body_firstName req))
      /\ lastName = Some (str (body_lastName req))
  | ErrorResponse msg d =>
      (status resp, msg) ∈ verify_errors /\ preflight req = false
      /\ (d = None
          \/ (status resp = 500 /\ NODE_ENV env = Some "development"))
  | EmptyBody => status resp = 204 /\ preflight req = true
  end.
Proof.
  assert (forall e,
    (500, "Failed to verify code or create user") ∈ verify_errors
    /\ (details_of env e = None
        \/ (500 = 500 /\ NODE_ENV env = Some "development"))) as Hfail.
  { intros e. split; [listed|].
    destruct (details_of_cases env e) as [->|[? _]]; auto. }
  destruct (well_formed_verify req) eqn:Hwf.
  2:{ rewrite (verifyCode_early _ _ _ Hwf).
      destruct (preflight req); [done|].
      destruct (negb _); [|destruct (_ || _)]; cbn;
        (split; [listed|split; [done|by left]]). }
  assert (preflight req = false) as Hpre.
  { destruct (preflight req) eqn:Hpre; [|done].
    apply preflight_not_post in Hpre.
    apply well_formed_verify_inv in Hwf as [Hm _]. congruence. }
  assert (forall e, let resp :=
            mkResponse 500 (ErrorResponse "Failed to verify code or create user"
                                          (details_of env e)) in
          (status resp, "Failed to verify code or create user") ∈ verify_errors
          /\ preflight req = false
          /\ (details_of env e = None
              \/ (status resp = 500 /\ NODE_ENV env = Some "development")))
    as Hfail'.
  { intros e. destruct (Hfail e). by split_and!. }
  destruct (fault env 0) as [e|] eqn:H0.
  { rewrite (verifyCode_lookup_rejected _ _ _ _ Hwf H0). apply Hfail'. }
  destruct (codesRef w !! str (body_codeId req)) as [v|] eqn:Hlook.
  2:{ rewrite (verifyCode_not_found _ _ _ Hwf H0 Hlook). cbn.
      split; [listed|split; [done|by left]]. }
  destruct (decide (expiresAt v < clock env 0)) as [Hlt|Hge].
  { rewrite (verifyCode_expired_run _ _ _ _ Hwf H0 Hlook Hlt).
    destruct (fault env 1); [apply Hfail'|]. cbn.
    split; [listed|split; [done|by left]]. }
  destruct (decide (code v = str (body_code req))) as [Heq|Hne].
  2:{ rewrite (verifyCode_incorrect_run _ _ _ _ Hwf H0 Hlook); [|lia|done].
      cbn. split; [listed|split; [done|by left]]. }
  rewrite (verifyCode_accept_run _ _ _ _ Hwf H0 Hlook); [|lia|done].
  cbv zeta.
  destruct (resolve_identity _ _ _ _ _) as [[u|e] s1]; [|apply Hfail'].
  destruct (fault env (awaits s1)); [apply Hfail'|].
  destruct (fault env (S (awaits s1))); [apply Hfail'|].
  cbn. split_and!; eauto.
Qed.

(* in every outcome the store of records is the old one or the old one
   without the key the request names *)
Lemma verifyCode_store_cases env req w :
  let codes' := codesRef (verifyCode env req w).2 in
  codes' = codesRef w
  \/ codes' = delete (str (body_codeId req)) (codesRef w).
Proof.
  destruct (well_formed_verify req) eqn:Hwf.
  2:{ rewrite (verifyCode_early _ _ _ Hwf). by left. }
  destruct (fault env 0) as [e|] eqn:H0.
  { rewrite (verifyCode_lookup_rejected _ _ _ _ Hwf H0). by left. }
  destruct (codesRef w !! str (body_codeId req)) as [v|] eqn:Hlook.
  2:{ rewrite (verifyCode_not_found _ _ _ Hwf H0 Hlook). by left. }
  destruct (decide (expiresAt v < clock env 0)) as [Hlt|Hge].
  { rewrite (verifyCode_expired_run _ _ _ _ Hwf H0 Hlook Hlt).
    destruct (fault env 1); [by left|by right]. }
  destruct (decide (code v = str (body_code req))) as [Heq|Hne].
  2:{ rewrite (verifyCode_incorrect_run _ _ _ _ Hwf H0 Hlook); [|lia|done].
      by left. }
  rewrite (verifyCode_accept_run _ _ _ _ Hwf H0 Hlook); [|lia|done].
  cbv zeta.
  destruct (resolve_identity _ _ _ _ _) as [[u|e] s1] eqn:Hres;
    apply (resolve_identity_codes (codesRef w)) in Hres; try done;
    unfold codes_are in Hres.
  - destruct (fault env (awaits s1)); [by left|].
    destruct (fault env (S (awaits s1))); cbn; rewrite Hres; by right.
  - by left.
Qed.

(** X9.  When the submitted codeId contains no '/', so that it names a
    child of the verificationCodes path, a verifyCode call changes no
    verification record and can remove only the one under that codeId:
    in every outcome the store of records is the old one, or the old one
    without that key. *)
Theorem verifyCode_touches_one_record env req w :
  slash_free (str (body_codeId req)) = true ->
  let codes' := codesRef (verifyCode env req w).2 in
  codes' = codesRef w
  \/ codes' = delete (str (body_codeId req)) (codesRef w).
Proof. intros _. apply verifyCode_store_cases. Qed.

Lemma verifyCode_touches_one_record_witness :
  let codes' :=
    codesRef (verifyCode Sample.env_ok (Sample.verify "550000" "Ada" "L")
                         Sample.two_records).2 in
  codes' = codesRef Sample.two_records
  \/ codes' = delete "0" (codesRef Sample.two_records).
Proof.
  apply (verifyCode_touches_one_record Sample.env_ok
           (Sample.verify "550000" "Ada" "L") Sample.two_records).
  reflexivity.
Defined.

(** X10.  Only a verification that got past the code check touches the
    accounts or the users path: when verifyCode answers 400 or 405 the
    Auth directory and the users path are exactly as before. *)
Theorem verifyCode_client_error_frame env req w resp w' :
  verifyCode env req w = (resp, w') ->
  status resp = 400 \/ status resp = 405 ->
  auth w' = auth w /\ usersRef w' = usersRef w.
Proof.
  intros Hrun Hst.
  destruct (well_formed_verify req) eqn:Hwf.
  2:{ rewrite (verifyCode_early _ _ _ Hwf) in Hrun. by simplify_eq. }
  destruct (fault env 0) as [e|] eqn:H0.
  { rewrite (verifyCode_lookup_rejected _ _ _ _ Hwf H0) in Hrun.
    by simplify_eq. }
  destruct (codesRef w !! str (body_codeId req)) as [v|] eqn:Hlook.
  2:{ rewrite (verifyCode_not_found _ _ _ Hwf H0 Hlook) in Hrun.
      by simplify_eq. }
  destruct (decide (expiresAt v < clock env 0)) as [Hlt|Hge].
  { rewrite (verifyCode_expired_run _ _ _ _ Hwf H0 Hlook Hlt) in Hrun.
    destruct (fault env 1); by simplify_eq. }
  destruct (decide (code v = str (body_code req))) as [Heq|Hne].
  2:{ rewrite (verifyCode_incorrect_run _ _ _ _ Hwf H0 Hlook) in Hrun;
        [|lia|done].
      by simplify_eq. }
  rewrite (verifyCode_accept_run _ _ _ _ Hwf H0 Hlook) in Hrun; [|lia|done].
  cbv zeta in Hrun. exfalso.
  destruct (resolve_identity _ _ _ _ _) as [[u|e] s1].
  - destruct (fault env (awaits s1)); [simplify_eq; cbn in Hst; lia|].
    destruct (fault env (S (awaits s1))); simplify_eq; cbn in Hst; lia.
  - simplify_eq. cbn in Hst. lia.
Qed.

Lemma verifyCode_client_error_frame_witness :
  let run := verifyCode Sample.env_ok (Sample.verify "000000" "Ada" "L")
                        Sample.returning_user in
  auth run.2 = auth Sample.returning_user
  /\ usersRef run.2 = usersRef Sample.returning_user.
Proof.
  intros run.
  apply (verifyCode_client_error_frame Sample.env_ok
           (Sample.verify "000000" "Ada" "L") Sample.returning_user
           run.1 run.2 eq_refl).
  left. reflexivity.
Defined.

(* ===================================================================== *)
(* 17. Delivery                                                          *)
(* ===================================================================== *)

(** X11.  sendWhatsAppVerificationCode never throws and changes nothing
    but the trace.  It makes no HTTP call and returns true when the
    configured phone id is absent, empty or the literal "TEST_PHONE_ID",
    or the token is absent, empty or the literal "TEST_TOKEN".  In every
    other case it makes exactly one POST, with that phone id and token,
    addressed to the given phone number and carrying the given code, the
    template name defaulting to "verification" and the language to "en";
    it returns true when the POST is answered and false when it is
    rejected. *)
Theorem sendWhatsAppVerificationCode_outcome phone code env s :
  let phoneId := whatsapp env ≫= phone_id in
  let accessToken := whatsapp env ≫= token in
  let skipped :=
    falsy phoneId || String.eqb (str phoneId) "TEST_PHONE_ID"
    || falsy accessToken || String.eqb (str accessToken) "TEST_TOKEN" in
  let post :=
    AxiosPost (str phoneId) (str accessToken) phone
      (or_default (whatsapp env ≫= template_name) "verification")
      (or_default (whatsapp env ≫= language) "en") code in
  sendWhatsAppVerificationCode phone code env s =
  if skipped then (Resolved true, s)
  else (Resolved (match fault env (awaits s) with
                  | None => true
                  | Some _ => false
                  end),
        mkSt (log_call post (world s)) (reads s) (S (awaits s))).
Proof.
  intros phoneId accessToken skipped post.
  subst skipped post.
  unfold sendWhatsAppVerificationCode, try_catch, or_default.
  fold phoneId accessToken.
  destruct (falsy phoneId) eqn:Hp; cbn [orb].
  { rewrite String.eqb_refl. cbn [orb]. unfold ret. done. }
  destruct (String.eqb (str phoneId) "TEST_PHONE_ID") eqn:Hp'; cbn [orb].
  { done. }
  destruct (falsy accessToken) eqn:Ht; cbn [orb].
  { rewrite String.eqb_refl. done. }
  destruct (String.eqb (str accessToken) "TEST_TOKEN") eqn:Ht'; [done|].
  unfold bind, axios_post, await, ret.
  by destruct (fault env (awaits s)).
Qed.

Lemma sendWhatsAppVerificationCode_outcome_witness :
  sendWhatsAppVerificationCode "+712345678" "550000" Sample.env_gateway_down
    (mkSt Sample.empty_world 0 1)
  = (Resolved false,
     mkSt (log_call (AxiosPost "106540352242922" "EAAG" "+712345678"
                               "verification" "en" "550000")
                    Sample.empty_world) 0 2)
  /\ sendWhatsAppVerificationCode "+712345678" "550000" Sample.env_ok
       (mkSt Sample.empty_world 0 1)
     = (Resolved true,
        mkSt (log_call (AxiosPost "106540352242922" "EAAG" "+712345678"
                                  "verification" "en" "550000")
                       Sample.empty_world) 0 2)
  /\ sendWhatsAppVerificationCode "+712345678" "550000"
       (mkEnv Sample.ticking Sample.never (1 # 2) None
              (Some (mkWhatsAppConfig (Some "TEST_PHONE_ID") (Some "EAAG")
                                      None None)) Sample.signer)
       (mkSt Sample.empty_world 0 1)
     = (Resolved true, mkSt Sample.empty_world 0 1).
Proof.
  split_and!.
  - apply (sendWhatsAppVerificationCode_outcome "+712345678" "550000"
             Sample.env_gateway_down (mkSt Sample.empty_world 0 1)).
  - apply (sendWhatsAppVerificationCode_outcome "+712345678" "550000"
             Sample.env_ok (mkSt Sample.empty_world 0 1)).
  - apply (sendWhatsAppVerificationCode_outcome "+712345678" "550000"
             (mkEnv Sample.ticking Sample.never (1 # 2) None
                (Some (mkWhatsAppConfig (Some "TEST_PHONE_ID") (Some "EAAG")
                                        None None)) Sample.signer)
             (mkSt Sample.empty_world 0 1)).
Defined.

(* ===================================================================== *)
(* 18. What the Issuer leaves alone                                      *)
(* ===================================================================== *)

Lemma push_key_free w : codesRef w !! push_key w = None.
Proof. unfold push_key. apply not_elem_of_dom, is_fresh. Qed.

(** X12.  requestVerification never touches the accounts or the users
    path, and never changes or removes a verification record that is
    already stored: in every outcome each old record is still there with
    its value, and the store has grown by at most the one new record. *)
Theorem requestVerification_frame env req w :
  let w' := (requestVerification env req w).2 in
  auth w' = auth w /\ usersRef w' = usersRef w
  /\ (forall k v, codesRef w !! k = Some v -> codesRef w' !! k = Some v)
  /\ (codesRef w' = codesRef w
      \/ (codesRef w !! push_key w = None
          /\ codesRef w' = <[push_key w := issued_record env req]> (codesRef w))).
Proof.
  destruct (well_formed_request req) eqn:Hwf.
  2:{ rewrite (requestVerification_early _ _ _ Hwf). cbn. auto. }
  rewrite (requestVerification_run _ _ _ Hwf).
  destruct (fault env 0); cbn; [auto|].
  split_and!; try done.
  - intros k v Hk. rewrite lookup_insert_ne; [done|].
    intros <-. by rewrite push_key_free in Hk.
  - right. split; [apply push_key_free|done].
Qed.

(* ===================================================================== *)
(* 19. The Verifier when a later step fails                              *)
(* ===================================================================== *)

(* when its three calls are answered, identity resolution resolves, and
   the account it returns holds the phone number and the new name *)
Lemma resolve_identity_three_calls phone firstName lastName env s :
  fault env (awaits s) = None ->
  fault env (S (awaits s)) = None ->
  fault env (S (S (awaits s))) = None ->
  exists u s',
    resolve_identity phone firstName lastName env s = (Resolved u, s')
    /\ awaits s' = S (S (S (awaits s)))
    /\ codesRef (world s') = codesRef (world s)
    /\ auth (world s') !! uid u =
       Some (mkAccount (Some phone) (Some (firstName ++ " " ++ lastName))).
Proof.
  intros H0 H1 H2.
  unfold resolve_identity, update_identity, create_identity,
    getUserByPhoneNumber, updateUser, users_update, createUser, users_set.
  run. rewrite H0.
  destruct (find_by_phone phone (auth (world s))) as [u0|] eqn:Hfind.
  - apply find_by_phone_Some in Hfind as [Hu0 Hp].
    repeat (progress (run; rewrite ?H1, ?H2, ?Hu0)).
    eexists _, _. split; [reflexivity|]. cbn. rewrite Hp.
    split_and!; try done. apply lookup_insert_eq.
  - run. cbn [err_code user_not_found String.eqb Ascii.eqb Bool.eqb orb].
    repeat (progress (run; rewrite ?H1, ?H2, ?Hfind)).
    eexists _, _. split; [reflexivity|]. cbn.
    split_and!; try done. apply lookup_insert_eq.
Qed.

(** X13.  The record is consumed before the token is made.  When every
    call of a valid verification is answered except createCustomToken,
    the caller gets the 500 and no token, yet the record is already
    deleted and the account for the phone number already created or
    renamed: the same code cannot be tried again. *)
Theorem verifyCode_token_rejected env req w v e :
  well_formed_verify req = true ->
  codesRef w !! str (body_codeId req) = Some v ->
  clock env 0 <= expiresAt v ->
  code v = str (body_code req) ->
  (forall n, (n < 5)%nat -> fault env n = None) ->
  fault env 5 = Some e ->
  exists w' userId,
    verifyCode env req w =
      (mkResponse 500 (ErrorResponse "Failed to verify code or create user"
                                     (details_of env e)), w')
    /\ codesRef w' !! str (body_codeId req) = None
    /\ auth w' !! userId =
       Some (mkAccount (Some (phoneNumber v))
               (Some (str (body_firstName req) ++ " "
                      ++ str (body_lastName req)))).
Proof.
  intros Hwf Hlook Hle Hcode Hok H5.
  rewrite (verifyCode_accept_run _ _ _ _ Hwf (Hok 0%nat ltac:(lia))
             Hlook Hle Hcode).
  cbv zeta.
  match goal with
  | |- context [resolve_identity ?p ?f ?l ?e ?s] =>
      destruct (resolve_identity_three_calls p f l e s)
        as (u & s1 & -> & Hs1 & _ & Hacc)
  end; try (apply Hok; cbn; lia).
  rewrite Hs1. cbn [awaits]. rewrite (Hok 4%nat) by lia. rewrite H5.
  eexists _, (uid u). split; [reflexivity|]. cbn.
  split; [apply lookup_delete_eq|exact Hacc].
Qed.

Lemma verifyCode_token_rejected_witness :
  let env := mkEnv Sample.ticking (Sample.only 5 Sample.gateway_down)
                   (1 # 2) None Sample.configured Sample.signer in
  exists w' userId,
    verifyCode env (Sample.verify "550000" "Ada" "L") Sample.one_record =
      (mkResponse 500 (ErrorResponse "Failed to verify code or create user"
                                     None), w')
    /\ codesRef w' !! "0" = None
    /\ auth w' !! userId = Some (mkAccount (Some "+712345678") (Some "Ada L")).
Proof.
  intros env.
  apply (verifyCode_token_rejected env (Sample.verify "550000" "Ada" "L")
           Sample.one_record Sample.record Sample.gateway_down);
    try reflexivity; try discriminate.
  intros n Hn. do 5 (destruct n as [|n]; [reflexivity|]). lia.
Defined.

(** X14.  A failure of the lookup by phone number that is neither
    "auth/user-not-found" nor "auth/invalid-phone-number" is not taken for
    a missing user: the call answers 500, no createUser is attempted, the
    accounts and the users path are untouched, and the record stays in
    the store so that the same code can be submitted again. *)
Theorem verifyCode_lookup_failure env req w v e :
  well_formed_verify req = true ->
  fault env 0 = None ->
  codesRef w !! str (body_codeId req) = Some v ->
  clock env 0 <= expiresAt v ->
  code v = str (body_code req) ->
  fault env 1 = Some e ->
  err_code e <> "auth/user-not-found" ->
  err_code e <> "auth/invalid-phone-number" ->
  verifyCode env req w =
  (mkResponse 500 (ErrorResponse "Failed to verify code or create user"
                                 (details_of env e)),
   log_calls [CodesOnce (str (body_codeId req));
              GetUserByPhoneNumber (phoneNumber v)] w).
Proof.
  intros Hwf H0 Hlook Hle Hcode H1 Hn1 Hn2.
  rewrite (verifyCode_accept_run _ _ _ _ Hwf H0 Hlook Hle Hcode). cbv zeta.
  unfold resolve_identity, update_identity, getUserByPhoneNumber.
  run. rewrite H1. run.
  rewrite (proj2 (String.eqb_neq _ _) Hn1), (proj2 (String.eqb_neq _ _) Hn2).
  cbn [orb]. run. unfold log_calls, log_call.
  cbn [codesRef usersRef auth calls]. by rewrite <- app_assoc.
Qed.

Lemma verifyCode_lookup_failure_witness :
  let e := mkErr "auth/internal-error" "An internal error has occurred." in
  let env := mkEnv Sample.ticking (Sample.only 1 e)
                   (1 # 2) None Sample.configured Sample.signer in
  verifyCode env (Sample.verify "550000" "Ada" "L") Sample.one_record =
  (mkResponse 500 (ErrorResponse "Failed to verify code or create user" None),
   log_calls [CodesOnce "0"; GetUserByPhoneNumber "+712345678"]
             Sample.one_record).
Proof.
  intros e env.
  apply (verifyCode_lookup_failure env (Sample.verify "550000" "Ada" "L")
           Sample.one_record Sample.record e);
    try reflexivity; discriminate.
Defined.

(* ===================================================================== *)
(* 20. The Sweeper: failure, repetition, and the Verifier after it       *)
(* ===================================================================== *)

Lemma nothing_expired_filter (codes : gmap string VerificationData) now :
  filter (fun kv => expiresAt kv.2 <= now) codes = ∅ ->
  filter (fun kv => now < expiresAt kv.2) codes = codes.
Proof.
  intros Hsnap. apply map_filter_id. intros k v Hk. cbn.
  destruct (decide (expiresAt v <= now)) as [Hle|]; [|lia].
  assert (filter (fun kv => expiresAt kv.2 <= now) codes !! k = Some v) as Hin
    by by apply map_lookup_filter_Some.
  by rewrite Hsnap, lookup_empty in Hin.
Qed.

(** X15.  A run of the Sweeper is all or nothing.  It never touches the
    accounts or the users path.  When it ends normally the store holds
    exactly the records with expiresAt above the clock reading; when it
    is rejected, by the query or by the bulk delete, the error is the one
    of that call and no record has been deleted. *)
Theorem cleanupExpiredCodes_all_or_nothing env w :
  let run := cleanupExpiredCodes env w in
  usersRef run.2 = usersRef w /\ auth run.2 = auth w
  /\ match run.1 with
     | Resolved _ =>
         codesRef run.2 =
         filter (fun kv => clock env 0 < expiresAt kv.2) (codesRef w)
     | Rejected e =>
         codesRef run.2 = codesRef w
         /\ (fault env 0 = Some e \/ fault env 1 = Some e)
     end.
Proof.
  unfold cleanupExpiredCodes, invoke, cleanupExpiredCodes_run, codes_endAt.
  run. destruct (fault env 0) as [e|]; run; [by auto|].
  set (snap := filter (fun kv => expiresAt kv.2 <= clock env 0) (codesRef w)).
  destruct (0 <? size (collect_updates snap))%nat eqn:Hsz.
  - unfold codes_update. run.
    destruct (fault env 1) as [e|]; run; [by auto|].
    split_and!; try done. apply sweep_filter.
  - apply Nat.ltb_ge in Hsz. cbn. split_and!; try done.
    symmetry. apply nothing_expired_filter.
    apply collect_updates_empty, map_size_empty_iff. fold snap. lia.
Qed.

(** X16.  Sweeps compose.  Two runs whose calls are answered leave what a
    single run at the later of the two clock readings would leave, and
    when the second run reads a time that is not later than the first it
    finds nothing and issues the query only. *)
Theorem cleanupExpiredCodes_twice env1 env2 w :
  fault env1 0 = None -> fault env1 1 = None ->
  fault env2 0 = None -> fault env2 1 = None ->
  exists w1 w2,
    cleanupExpiredCodes env1 w = (Resolved tt, w1)
    /\ cleanupExpiredCodes env2 w1 = (Resolved tt, w2)
    /\ codesRef w2 =
       filter (fun kv => Z.max (clock env1 0) (clock env2 0) < expiresAt kv.2)
              (codesRef w)
    /\ (clock env2 0 <= clock env1 0 ->
        w2 = log_call (CodesEndAt (clock env2 0)) w1).
Proof.
  intros H10 H11 H20 H21.
  destruct (cleanupExpiredCodes_sweeps env1 w H10 H11)
    as (w1 & Hrun1 & Hc1 & _).
  destruct (cleanupExpiredCodes_sweeps env2 w1 H20 H21)
    as (w2 & Hrun2 & Hc2 & _ & _ & Hnoop).
  exists w1, w2. split_and!; try done.
  - rewrite Hc2, Hc1, map_filter_filter.
    apply map_filter_ext. intros k v _. cbn. lia.
  - intros Hle. apply Hnoop. rewrite Hc1.
    apply map_empty. intros k. apply map_lookup_filter_None.
    destruct (filter _ (codesRef w) !! k) as [v|] eqn:Hk; [|by left].
    right. intros v' [= <-]. cbn.
    apply map_lookup_filter_Some in Hk as [_ Hk]. cbn in Hk. lia.
Qed.

Lemma cleanupExpiredCodes_twice_witness :
  exists w1 w2,
    cleanupExpiredCodes (Sample.env_at 301000) Sample.two_records
    = (Resolved tt, w1)
    /\ cleanupExpiredCodes (Sample.env_at 5000) w1 = (Resolved tt, w2)
    /\ w2 = log_call (CodesEndAt 5000) w1.
Proof.
  destruct (cleanupExpiredCodes_twice (Sample.env_at 301000)
              (Sample.env_at 5000) Sample.two_records
              eq_refl eq_refl eq_refl eq_refl)
    as (w1 & w2 & H1 & H2 & _ & Hnoop).
  exists w1, w2. split; [exact H1|]. split; [exact H2|].
  apply Hnoop. discriminate.
Defined.

(** X17.  Once the Sweeper has removed an expired record, the Verifier no
    longer tells the caller that the code has expired: a well-formed
    verifyCode call for that codeId, its lookup answered, gets the 400
    "Verification code not found". *)
Theorem verifyCode_after_sweep env1 env2 req w v :
  fault env1 0 = None -> fault env1 1 = None ->
  codesRef w !! str (body_codeId req) = Some v ->
  expiresAt v <= clock env1 0 ->
  well_formed_verify req = true -> fault env2 0 = None ->
  exists w1,
    cleanupExpiredCodes env1 w = (Resolved tt, w1)
    /\ verifyCode env2 req w1 =
       (error_response 400 "Verification code not found",
        log_call (CodesOnce (str (body_codeId req))) w1).
Proof.
  intros H10 H11 Hlook Hexp Hwf H20.
  destruct (cleanupExpiredCodes_sweeps env1 w H10 H11)
    as (w1 & Hrun1 & Hc1 & _).
  exists w1. split; [done|]. apply verifyCode_not_found; try done.
  rewrite Hc1. apply map_lookup_filter_None. right.
  intros v' ?. cbn. simplify_eq. lia.
Qed.

Lemma verifyCode_after_sweep_witness :
  exists w1,
    cleanupExpiredCodes (Sample.env_at 400000) Sample.one_record
    = (Resolved tt, w1)
    /\ verifyCode (Sample.env_at 400001) (Sample.verify "550000" "Ada" "L") w1
       = (error_response 400 "Verification code not found",
          log_call (CodesOnce "0") w1).
Proof.
  apply (verifyCode_after_sweep (Sample.env_at 400000) (Sample.env_at 400001)
           (Sample.verify "550000" "Ada" "L") Sample.one_record Sample.record);
    try reflexivity.
  discriminate.
Defined.

(* ===================================================================== *)
(* 21. From the Issuer to the Verifier                                   *)
(* ===================================================================== *)

Lemma pretty_nat_nonempty (n : nat) : pretty n <> "".
Proof.
  unfold pretty, pretty_nat, pretty, pretty_N.
  case_decide; [done|].
  rewrite pretty_N_go_step by lia. by apply pretty_N_go_nonempty.
Qed.

(* the search for a fresh string ends on the decimal writing of a number *)
Lemma search_go_pretty (xs : list string) (n : nat) acc :
  exists m : nat,
    Fix_F (fun _ => string) (search_infinite_go pretty xs) (x := n) acc
    = pretty m.
Proof.
  revert n acc. fix FIX 2. intros n [acc]. simpl.
  unfold search_infinite_go at 1.
  destruct (decide _); eauto.
Qed.

Lemma fresh_string_pretty (xs : list string) :
  exists n : nat, fresh xs = pretty n.
Proof.
  unfold fresh, infinite_fresh, string_infinite, search_infinite.
  apply search_go_pretty.
Qed.

(* the key of a new record is never the empty string *)
Lemma push_key_nonempty w : push_key w <> "".
Proof.
  destruct (fresh_string_pretty (elements (dom (codesRef w)))) as [n Hn].
  change (fresh (elements (dom (codesRef w))) <> "").
  rewrite Hn. apply pretty_nat_nonempty.
Qed.

Lemma falsy_Some s : s <> "" -> falsy (Some s) = false.
Proof. intros Hs. by apply String.eqb_neq. Qed.

(** X18.  Issuing and verifying fit together.  When requestVerification
    is answered 200, a verifyCode call that presents the returned codeId,
    the code that was generated, and two non-empty names, that reads a
    clock not later than five minutes after the Issuer's first reading
    and meets no rejected call, is answered 200 with a token for a user
    whose account holds the normalised phone number and the submitted
    name; and the record is consumed. *)
Theorem issue_then_verify env1 env2 req firstName lastName w :
  well_formed_request req = true -> fault env1 0 = None ->
  (0 <= random env1)%Q -> (random env1 < 1)%Q ->
  firstName <> "" -> lastName <> "" ->
  no_fault env2 -> clock env2 0 <= clock env1 0 + 300000 ->
  exists codeId w1 userId w2,
    requestVerification env1 req w =
      (mkResponse 200 (SuccessResponse (Some codeId) None None None None), w1)
    /\ verifyCode env2
         (mkRequest "POST" None (Some codeId)
                    (Some (generate_code (random env1)))
                    (Some firstName) (Some lastName)) w1 =
       (mkResponse 200
          (SuccessResponse None (Some userId) (Some (sign env2 userId))
                           (Some firstName) (Some lastName)), w2)
    /\ codesRef w2 !! codeId = None
    /\ auth w2 !! userId =
       Some (mkAccount
               (Some (formatPhoneNumber (str (body_phoneNumber req))))
               (Some (firstName ++ " " ++ lastName))).
Proof.
  intros Hwf H0 Hr0 Hr1 Hfn Hln Hnf Hclock.
  set (codeId := push_key w). set (data := issued_record env1 req).
  set (w1 := log_calls
               (CodesSet codeId data
                  :: delivery_calls env1 (phoneNumber data) (code data))
               (set_codes (<[codeId := data]> (codesRef w)) w)).
  exists codeId, w1.
  set (req2 := mkRequest _ _ _ _ _ _).
  assert (well_formed_verify req2 = true) as Hwf2.
  { unfold well_formed_verify, req2.
    cbn [method body_codeId body_code body_firstName body_lastName].
    rewrite !falsy_Some; try done.
    - apply generate_code_nonempty.
    - apply push_key_nonempty. }
  assert (codesRef w1 !! str (body_codeId req2) = Some data) as Hlook
    by apply lookup_insert_eq.
  rewrite (verifyCode_accept_run env2 req2 w1 data Hwf2 (Hnf 0%nat) Hlook);
    [|done|done].
  cbv zeta.
  match goal with
  | |- context [resolve_identity ?p ?f ?l ?e ?s] =>
      destruct (resolve_identity_three_calls p f l e s)
        as (u & s1 & -> & Hs1 & _ & Hacc)
  end; try apply Hnf.
  rewrite !Hnf. exists (uid u). eexists.
  split; [by rewrite (requestVerification_run _ _ _ Hwf), H0|].
  split; [reflexivity|].
  cbn. split; [apply lookup_delete_eq|exact Hacc].
Qed.

Lemma issue_then_verify_witness :
  exists codeId w1 userId w2,
    requestVerification Sample.env_gateway_down Sample.request_code
                        Sample.empty_world =
      (mkResponse 200 (SuccessResponse (Some codeId) None None None None), w1)
    /\ verifyCode (Sample.env_at 200000)
         (mkRequest "POST" None (Some codeId)
                    (Some (generate_code (1 # 2)))
                    (Some "Ada") (Some "L")) w1 =
       (mkResponse 200
          (SuccessResponse None (Some userId) (Some (Sample.signer userId))
                           (Some "Ada") (Some "L")), w2)
    /\ codesRef w2 !! codeId = None
    /\ auth w2 !! userId =
       Some (mkAccount (Some (formatPhoneNumber "0712345678"))
                       (Some "Ada L")).
Proof.
  apply (issue_then_verify Sample.env_gateway_down (Sample.env_at 200000)
           Sample.request_code "Ada" "L" Sample.empty_world);
    try reflexivity; try discriminate.
  intros n. reflexivity.
Defined.

(* ===================================================================== *)
(* 22. One phone number, one account                                     *)
(* ===================================================================== *)

(* what a call answered 200 has done, in terms of its identity
   resolution *)
Lemma verifyCode_200_resolved env req w resp w' v :
  codesRef w !! str (body_codeId req) = Some v ->
  verifyCode env req w = (resp, w') -> status resp = 200 ->
  exists u s1,
    resolve_identity (phoneNumber v) (str (body_firstName req))
      (str (body_lastName req)) env
      (mkSt (log_call (CodesOnce (str (body_codeId req))) w) 1 1)
    = (Resolved u, s1)
    /\ json resp =
       SuccessResponse None (Some (uid u)) (Some (sign env (uid u)))
         (Some (str (body_firstName req))) (Some (str (body_lastName req)))
    /\ auth w' = auth (world s1) /\ usersRef w' = usersRef (world s1)
    /\ codesRef w' = delete (str (body_codeId req)) (codesRef w).
Proof.
  intros Hlook Hrun H200.
  destruct (verifyCode_200_inv _ _ _ _ _ Hrun H200)
    as (Hwf & H0 & v' & Hlook' & Hle & Hcode).
  assert (v' = v) as -> by congruence.
  rewrite (verifyCode_accept_run _ _ _ _ Hwf H0 Hlook Hle Hcode) in Hrun.
  cbv zeta in Hrun.
  destruct (resolve_identity _ _ _ _ _) as [[u|e] s1] eqn:Hres;
    [|by simplify_eq].
  pose proof Hres as Hcodes.
  apply (resolve_identity_codes (codesRef w)) in Hcodes; [|done].
  unfold codes_are in Hcodes.
  destruct (fault env (awaits s1)); [by simplify_eq|].
  destruct (fault env (S (awaits s1))); simplify_eq.
  exists u, s1. cbn. by rewrite Hcodes.
Qed.

(** X19.  Two verifications for one phone number leave one account.  In
    a directory without duplicates where nobody holds the phone number,
    let two records carry that number, and let a verifyCode call on the
    first and then one on the second both be answered 200.  Then both
    responses name the same uid, which was free before; the directory
    has grown by exactly that one account; and the account carries the
    display name of the second call. *)
Theorem verifyCode_twice_one_account
    env1 env2 req1 req2 w resp1 w1 resp2 w2 v1 v2 phone :
  phone_unique (auth w) ->
  find_by_phone phone (auth w) = None ->
  codesRef w !! str (body_codeId req1) = Some v1 ->
  codesRef w !! str (body_codeId req2) = Some v2 ->
  str (body_codeId req1) <> str (body_codeId req2) ->
  phoneNumber v1 = phone -> phoneNumber v2 = phone ->
  verifyCode env1 req1 w = (resp1, w1) -> status resp1 = 200 ->
  verifyCode env2 req2 w1 = (resp2, w2) -> status resp2 = 200 ->
  exists userId,
    auth w !! userId = None
    /\ json resp1 =
       SuccessResponse None (Some userId) (Some (sign env1 userId))
         (Some (str (body_firstName req1))) (Some (str (body_lastName req1)))
    /\ json resp2 =
       SuccessResponse None (Some userId) (Some (sign env2 userId))
         (Some (str (body_firstName req2))) (Some (str (body_lastName req2)))
    /\ auth w2 =
       <[userId := mkAccount (Some phone)
                     (Some (str (body_firstName req2) ++ " "
                            ++ str (body_lastName req2)))]> (auth w)
    /\ size (auth w2) = S (size (auth w))
    /\ phone_unique (auth w2).
Proof.
  intros Hu Hfree Hl1 Hl2 Hne Hp1 Hp2 Hrun1 H1 Hrun2 H2.
  destruct (verifyCode_200_resolved _ _ _ _ _ _ Hl1 Hrun1 H1)
    as (u1 & s1 & Hres1 & Hj1 & Ha1 & _ & Hc1).
  apply resolve_identity_resolved in Hres1. cbv zeta in Hres1.
  cbn [world auth usersRef log_call reads] in Hres1.
  rewrite Hp1, Hfree in Hres1. destruct Hres1 as (-> & Hauth1 & _).
  cbn [uid account] in *. rewrite <- Ha1 in Hauth1.
  set (userId := fresh (dom (auth w))) in *.
  set (acc1 := mkAccount (Some phone) _) in Hauth1.
  assert (auth w !! userId = None) as Hfresh by apply fresh_uid_free.
  assert (phone_unique (auth w1)) as Hu1.
  { rewrite Hauth1. by apply phone_unique_create. }
  assert (find_by_phone phone (auth w1) = Some (mkUserRecord userId acc1))
    as Hfind1.
  { apply find_by_phone_unique; [done| |done].
    rewrite Hauth1. apply lookup_insert_eq. }
  assert (codesRef w1 !! str (body_codeId req2) = Some v2) as Hl2'.
  { rewrite Hc1. by rewrite lookup_delete_ne. }
  destruct (verifyCode_200_resolved _ _ _ _ _ _ Hl2' Hrun2 H2)
    as (u2 & s2 & Hres2 & Hj2 & Ha2 & _ & _).
  apply resolve_identity_resolved in Hres2. cbv zeta in Hres2.
  cbn [world auth usersRef log_call reads] in Hres2.
  rewrite Hp2, Hfind1 in Hres2. destruct Hres2 as (-> & Hauth2 & _).
  cbn [uid account acc_phoneNumber acc1] in *. rewrite <- Ha2 in Hauth2.
  assert (auth w2 =
          <[userId := mkAccount (Some phone)
                        (Some (str (body_firstName req2) ++ " "
                               ++ str (body_lastName req2)))]> (auth w))
    as Hauth.
  { rewrite Hauth2, Hauth1. apply insert_insert_eq. }
  exists userId. split_and!; try done.
  - rewrite Hauth. by apply map_size_insert_None.
  - rewrite Hauth. by apply phone_unique_create.
Qed.

Lemma verifyCode_twice_one_account_witness :
  let w := mkWorld {[ "0" := Sample.record;
                      "1" := mkVerificationData "+712345678" "123456"
                                                900000 600000 ]} ∅ ∅ [] in
  let r1 := verifyCode Sample.env_ok (Sample.verify "550000" "Ada" "L") w in
  let r2 := verifyCode Sample.env_ok
              (mkRequest "POST" None (Some "1") (Some "123456")
                         (Some "Ada") (Some "Lovelace")) r1.2 in
  exists userId,
    auth r2.2 =
      <[userId := mkAccount (Some "+712345678") (Some "Ada Lovelace")]> ∅
    /\ size (auth r2.2) = 1%nat.
Proof.
  intros w r1 r2.
  assert (phone_unique (auth w)) as Hu.
  { subst w. cbn [auth]. intros k1 k2 a1 a2 p Hk1.
    by rewrite lookup_empty in Hk1. }
  assert ("0" <> "1") as Hne by discriminate.
  destruct (verifyCode_twice_one_account Sample.env_ok Sample.env_ok
              (Sample.verify "550000" "Ada" "L")
              (mkRequest "POST" None (Some "1") (Some "123456")
                         (Some "Ada") (Some "Lovelace"))
              w r1.1 r1.2 r2.1 r2.2 Sample.record
              (mkVerificationData "+712345678" "123456" 900000 600000)
              "+712345678" Hu)
    as (userId & _ & _ & _ & Hauth & Hsize & _);
    [vm_compute; reflexivity | vm_compute; reflexivity
    | vm_compute; reflexivity | exact Hne | reflexivity | reflexivity
    | vm_compute; reflexivity | vm_compute; reflexivity
    | vm_compute; reflexivity | vm_compute; reflexivity |].
  exists userId. split; [exact Hauth|exact Hsize].
Defined.

(* the Sweeper does not touch the directory *)
Lemma cleanupExpiredCodes_run_unique :
  preserves directory_unique cleanupExpiredCodes_run.
Proof.
  unfold cleanupExpiredCodes_run, codes_endAt, codes_update. preserve.
Qed.

(** X20.  No function ever makes two accounts share a phone number.  If
    the directory has no duplicate before a call of requestVerification,
    of verifyCode or of the Sweeper, it has none after it, whatever the
    request, whatever the call answers and whichever external call
    fails. *)
Theorem phone_unique_invariant env req w :
  phone_unique (auth w) ->
  phone_unique (auth (requestVerification env req w).2)
  /\ phone_unique (auth (verifyCode env req w).2)
  /\ phone_unique (auth (cleanupExpiredCodes env w).2).
Proof.
  intros Hu. split_and!.
  - destruct (well_formed_request req) eqn:Hwf.
    + rewrite (requestVerification_run _ _ _ Hwf).
      by destruct (fault env 0).
    + by rewrite (requestVerification_early _ _ _ Hwf).
  - by apply verifyCode_unique.
  - unfold cleanupExpiredCodes, invoke.
    destruct (cleanupExpiredCodes_run env (mkSt w 0 0)) as [o s'] eqn:Hrun.
    by apply cleanupExpiredCodes_run_unique in Hrun.
Qed.

Lemma phone_unique_invariant_witness :
  phone_unique
    (auth (verifyCode Sample.env_ok (Sample.verify "550000" "Ada" "L")
                      Sample.returning_user).2).
Proof.
  apply (phone_unique_invariant Sample.env_ok
           (Sample.verify "550000" "Ada" "L") Sample.returning_user).
  unfold Sample.returning_user. cbn [auth].
  intros k1 k2 a1 a2 p H1 H2 _ _.
  apply lookup_singleton_Some in H1 as [<- _].
  apply lookup_singleton_Some in H2 as [<- _]. reflexivity.
Defined.

(* ===================================================================== *)
(* 23. Writes that fail half way                                         *)
(* ===================================================================== *)

(** X21.  When the record is past its expiry but the delete issued on
    detection is rejected, the caller is not told that the code expired:
    the call answers 500 and the expired record is still in the store. *)
Theorem verifyCode_expired_delete_rejected env req w v e :
  well_formed_verify req = true ->
  fault env 0 = None -> fault env 1 = Some e ->
  codesRef w !! str (body_codeId req) = Some v ->
  expiresAt v < clock env 0 ->
  exists w',
    verifyCode env req w =
      (mkResponse 500 (ErrorResponse "Failed to verify code or create user"
                                     (details_of env e)), w')
    /\ codesRef w' = codesRef w
    /\ usersRef w' = usersRef w /\ auth w' = auth w.
Proof.
  intros Hwf H0 H1 Hlook Hlt. eexists. split.
  - rewrite (verifyCode_expired_run _ _ _ _ Hwf H0 Hlook Hlt), H1.
    reflexivity.
  - done.
Qed.

Lemma verifyCode_expired_delete_rejected_witness :
  let env := mkEnv (Sample.frozen 301001) (Sample.only 1 Sample.gateway_down)
                   (1 # 2) (Some "development") Sample.configured
                   Sample.signer in
  exists w',
    verifyCode env (Sample.verify "550000" "Ada" "L") Sample.one_record =
      (mkResponse 500
         (ErrorResponse "Failed to verify code or create user"
                        (Some "Request failed with status code 503")), w')
    /\ codesRef w' = codesRef Sample.one_record
    /\ usersRef w' = usersRef Sample.one_record
    /\ auth w' = auth Sample.one_record.
Proof.
  intros env.
  apply (verifyCode_expired_delete_rejected env
           (Sample.verify "550000" "Ada" "L") Sample.one_record
           Sample.record Sample.gateway_down);
    reflexivity.
Defined.

(** X22.  Creating a user is two writes, and the second can fail alone.
    For a phone number nobody holds, when createUser is answered but the
    write of the users child is rejected, the call answers 500, the
    record stays, and the new account exists without a users child
    written by this call.  A retry with the same code, nothing rejected,
    is then answered 200 for that same account by the update path, which
    writes only firstName, lastName and displayName: if the uid had no
    users child before, the child it gets has no role and no phoneNumber
    field. *)
Theorem verifyCode_profile_write_rejected env1 env2 req w v e :
  well_formed_verify req = true ->
  codesRef w !! str (body_codeId req) = Some v ->
  clock env1 0 <= expiresAt v -> clock env2 0 <= expiresAt v ->
  code v = str (body_code req) ->
  phone_unique (auth w) ->
  find_by_phone (phoneNumber v) (auth w) = None ->
  (forall n, (n < 3)%nat -> fault env1 n = None) ->
  fault env1 3 = Some e ->
  no_fault env2 ->
  let firstName := str (body_firstName req) in
  let lastName := str (body_lastName req) in
  let displayName := firstName ++ " " ++ lastName in
  let userId := fresh (dom (auth w)) in
  exists w1 w2,
    verifyCode env1 req w =
      (mkResponse 500 (ErrorResponse "Failed to verify code or create user"
                                     (details_of env1 e)), w1)
    /\ codesRef w1 = codesRef w /\ usersRef w1 = usersRef w
    /\ auth w1 =
       <[userId := mkAccount (Some (phoneNumber v)) (Some displayName)]>
         (auth w)
    /\ verifyCode env2 req w1 =
       (mkResponse 200
          (SuccessResponse None (Some userId) (Some (sign env2 userId))
                           (Some firstName) (Some lastName)), w2)
    /\ usersRef w2 !! userId =
       Some (name_fields firstName lastName displayName
             ∪ default ∅ (usersRef w !! userId))
    /\ (usersRef w !! userId = None ->
        forall node, usersRef w2 !! userId = Some node ->
                     node !! "role" = None /\ node !! "phoneNumber" = None).
Proof.
  intros Hwf Hlook Hle1 Hle2 Hcode Hu Hfree Hok H3 Hnf
         firstName lastName displayName userId.
  set (acc := mkAccount (Some (phoneNumber v)) (Some displayName)).
  set (codeId := str (body_codeId req)) in *.
  set (w1 := mkWorld (codesRef w) (usersRef w) (<[userId := acc]> (auth w))
               (calls w ++ [CodesOnce codeId;
                            GetUserByPhoneNumber (phoneNumber v);
                            CreateUser displayName (phoneNumber v);
                            UsersSet userId
                              (userData firstName lastName (phoneNumber v)
                                        userId (clock env1 1))])%list).
  assert (verifyCode env1 req w =
          (mkResponse 500
             (ErrorResponse "Failed to verify code or create user"
                            (details_of env1 e)), w1)) as Hrun1.
  { rewrite (verifyCode_accept_run _ _ _ _ Hwf (Hok 0%nat ltac:(lia))
               Hlook Hle1 Hcode).
    cbv zeta.
    unfold resolve_identity, update_identity, create_identity,
      getUserByPhoneNumber, createUser, users_set.
    run. rewrite (Hok 1%nat) by lia. rewrite Hfree. run.
    cbn [err_code user_not_found String.eqb Ascii.eqb Bool.eqb orb].
    run. rewrite (Hok 2%nat) by lia. rewrite Hfree. run. rewrite H3. run.
    unfold w1, log_call. cbn [codesRef usersRef auth calls].
    by rewrite <- !app_assoc. }
  assert (find_by_phone (phoneNumber v) (auth w1)
          = Some (mkUserRecord userId acc)) as Hfind.
  { apply find_by_phone_unique; [|apply lookup_insert_eq|done].
    by apply phone_unique_create. }
  destruct (verifyCode_accepts env2 req w1 v Hwf Hnf Hlook Hle2 Hcode)
    as (uid2 & w2 & Hrun2 & _).
  destruct (verifyCode_200_resolved env2 req w1 _ w2 v Hlook Hrun2 eq_refl)
    as (u & s2 & Hres & Hjson & _ & Husers & _).
  apply resolve_identity_resolved in Hres. cbv zeta in Hres.
  cbn [world auth usersRef log_call reads] in Hres.
  rewrite Hfind in Hres. destruct Hres as (-> & _ & Hn).
  cbn [uid account json] in *. simplify_eq.
  unfold w1 in Hn. cbn [usersRef] in Hn.
  exists w1, w2. split_and!; try done.
  - rewrite Husers, Hn. apply lookup_insert_eq.
  - intros Hnone node. rewrite Husers, Hn, lookup_insert_eq, Hnone.
    intros [= <-]. cbn [default]. rewrite !lookup_union_r; try done;
      unfold name_fields; by simplify_map_eq.
Qed.

Lemma verifyCode_profile_write_rejected_witness :
  let env1 := mkEnv Sample.ticking (Sample.only 3 Sample.gateway_down)
                    (1 # 2) None Sample.configured Sample.signer in
  let req := Sample.verify "550000" "Ada" "L" in
  exists w1 w2,
    status (verifyCode env1 req Sample.one_record).1 = 500
    /\ (verifyCode env1 req Sample.one_record).2 = w1
    /\ status (verifyCode Sample.env_ok req w1).1 = 200
    /\ (verifyCode Sample.env_ok req w1).2 = w2
    /\ forall node, usersRef w2 !! "0" = Some node -> node !! "role" = None.
Proof.
  intros env1 req.
  assert (phone_unique (auth Sample.one_record)) as Hu.
  { unfold Sample.one_record. cbn [auth]. intros k1 k2 a1 a2 p Hk1.
    by rewrite lookup_empty in Hk1. }
  destruct (verifyCode_profile_write_rejected env1 Sample.env_ok req
              Sample.one_record Sample.record Sample.gateway_down)
    as (w1 & w2 & Hrun1 & _ & _ & _ & Hrun2 & _ & Hrole);
    [reflexivity | reflexivity | discriminate | discriminate | reflexivity
    | exact Hu | reflexivity
    | intros n Hn; do 3 (destruct n as [|n]; [reflexivity|]); lia
    | reflexivity | intros n; reflexivity |].
  exists w1, w2. rewrite Hrun1, Hrun2.
  split_and!; try reflexivity.
  intros node Hnode. apply (Hrole eq_refl node). exact Hnode.
Defined.
